(** * Data Safe Haven: the blob-backed configuration document

    A shallow embedding of [data_safe_haven/utility/type_checked.py] and
    [data_safe_haven/config/config.py].

    Python values held in instance dictionaries, produced by chili's
    encoder and exchanged with PyYAML are one tree type [pyval]. Raised
    exceptions are the error branch of a small result monad. Dictionaries
    the code only looks up or iterates without regard to order
    ([Config.sres], [ConfigSectionPulumi.stacks],
    [ConfigSectionSRE.research_desktops]) are stdpp [gmap]s. *)

From Stdlib Require Import ZArith String.
From stdpp Require Import base gmap strings list fin_maps pretty.

#[local] Set Warnings "-register-all -notation-incompatible-prefix".
Open Scope string_scope.

(* ------------------------------------------------------------------ *)
(** ** Exceptions and the result monad *)

Inductive exn :=
  | AttributeError
  | KeyError
  | TypeError
  | ValueError (msg : string)
  | DataSafeHavenParameterError (msg : string)
  | DataSafeHavenAzureError
  | ParserError             (** [yaml.parser.ParserError] *)
  | ScannerError            (** [yaml.scanner.ScannerError] *)
  | ConstructorError        (** [yaml.constructor.ConstructorError] *)
  | DecoderError.           (** chili's decoding failure *)

Inductive result (A : Type) :=
  | Ok (a : A)
  | Err (e : exn).
Arguments Ok {A} a.
Arguments Err {A} e.

Definition bind {A B} (m : result A) (k : A -> result B) : result B :=
  match m with Ok a => k a | Err e => Err e end.

Notation "x <- m ;; k" := (bind m (fun x => k))
  (at level 65, m at next level, right associativity).
Notation "' p <- m ;; k" := (bind m (fun x => match x with p => k end))
  (at level 65, p pattern, m at next level, right associativity).

Fixpoint mapM {A B} (f : A -> result B) (l : list A) : result (list B) :=
  match l with
  | [] => Ok []
  | x :: l' => y <- f x ;; ys <- mapM f l' ;; Ok (y :: ys)
  end.

(* ------------------------------------------------------------------ *)
(** ** Python values *)

(** [PTypeChecked] is a [TypeChecked] descriptor object: what an unset
    field holds and what [__get__] returns as its sentinel. *)
Inductive pyval :=
  | PNone
  | PBool (b : bool)
  | PInt (z : Z)
  | PStr (s : string)
  | PList (l : list pyval)
  | PDict (kv : list (string * pyval))
  | PTypeChecked.

(** Python truthiness: a [TypeChecked] object defines neither [__bool__]
    nor [__len__], so it is true. *)
Definition py_truthy (v : pyval) : bool :=
  match v with
  | PNone => false
  | PBool b => b
  | PInt z => negb (Z.eqb z 0)
  | PStr s => negb (String.eqb s "")
  | PList l => negb (Nat.eqb (length l) 0)
  | PDict kv => negb (Nat.eqb (length kv) 0)
  | PTypeChecked => true
  end.

(** [str(v)] as far as the validators see it. *)
Definition py_str (v : pyval) : string :=
  match v with
  | PStr s => s
  | PNone => "None"
  | PBool true => "True"
  | PBool false => "False"
  | PTypeChecked => "<data_safe_haven.utility.type_checked.TypeChecked object>"
  | _ => "<value>"
  end.

(** The wrapped types used with [TypeChecked]. *)
Inductive pytype := TStr | TInt | TBool.

(** [isinstance(value, wrapped_type)]; [bool] is a subclass of [int]. *)
Definition isinstance (v : pyval) (t : pytype) : bool :=
  match t, v with
  | TStr, PStr _ => true
  | TInt, PInt _ => true
  | TInt, PBool _ => true
  | TBool, PBool _ => true
  | _, _ => false
  end.

Definition pytype_name (t : pytype) : string :=
  match t with TStr => "str" | TInt => "int" | TBool => "bool" end.

(* ------------------------------------------------------------------ *)
(** ** [TypeChecked] (utility/type_checked.py) *)

Module TypeChecked.

(** A descriptor: its wrapped type, its [default] ([None] for [Unset])
    and the [name] recorded by [__set_name__] ([None] if it never ran,
    so that reading [self.name] raises [AttributeError]). *)
Record descriptor := {
  wrapped : pytype;
  default : option pyval;
  dname : option string;
}.

(** An owning instance: [None] models [instance is None] (so that
    [instance.__dict__] raises [AttributeError]), otherwise its
    [__dict__]. *)
Definition instance := option (gmap string pyval).

Definition get_name (d : descriptor) : result string :=
  match dname d with Some n => Ok n | None => Err AttributeError end.

Definition check_type (d : descriptor) (value : pyval) : result pyval :=
  if isinstance value (wrapped d) then Ok value
  else
    n <- get_name d ;;
    Err (DataSafeHavenParameterError
           ("Invalid type for '" ++ n ++ "': '" ++ py_str value
            ++ "' is not a " ++ pytype_name (wrapped d) ++ ".")).

(** The body of the [try] in [__get__]. *)
Definition get_try (d : descriptor) (inst : instance) : result pyval :=
  dict <- (match inst with Some m => Ok m | None => Err AttributeError end) ;;
  n <- get_name d ;;
  value <- (match dict !! n with Some v => Ok v | None => Err KeyError end) ;;
  check_type d value.

Definition caught (e : exn) : bool :=
  match e with
  | AttributeError | DataSafeHavenParameterError _ | KeyError => true
  | _ => false
  end.

Definition __get__ (d : descriptor) (inst : instance) : result pyval :=
  match get_try d inst with
  | Ok v => Ok v
  | Err e =>
      if caught e then
        match default d with
        | Some dv => Ok dv
        | None => Ok PTypeChecked
        end
      else Err e
  end.

Definition __set__ (d : descriptor) (dict : gmap string pyval) (value : pyval)
  : result (gmap string pyval) :=
  match value with
  | PTypeChecked => n <- get_name d ;; Ok (<[n := value]> dict)
  | _ => v <- check_type d value ;; n <- get_name d ;; Ok (<[n := v]> dict)
  end.

(** Reading the field [d] of a dataclass instance whose [__dict__] entry
    for it holds [raw] (the dataclass [__init__] always sets it). *)
Definition read (d : descriptor) (raw : pyval) : result pyval :=
  __get__ d (Some (match dname d with Some n => {[n := raw]} | None => ∅ end)).

(** Assigning [value] to that field: the new raw entry. *)
Definition write (d : descriptor) (value : pyval) : result pyval :=
  match value with
  | PTypeChecked => Ok value
  | _ => check_type d value
  end.

(** The dataclass default of a field declared [x: TypeChecked[T] = d]:
    [getattr(cls, x)], i.e. [d.__get__(None, cls)]. *)
Definition class_default (d : descriptor) : result pyval := __get__ d None.

End TypeChecked.

(* ------------------------------------------------------------------ *)
(** ** Validators (functions/ in the repository, outside src/)

    The sections call [validate_aad_guid], [validate_azure_location],
    [validate_email_address], [validate_ip_address], [validate_timezone]
    and [validate_azure_vm_sku]; each raises on a bad value. They are
    kept abstract: [true] means the validator accepts its argument. *)

Record validators := {
  validate_aad_guid : string -> bool;
  validate_azure_location : string -> bool;
  validate_email_address : string -> bool;
  validate_ip_address : string -> bool;
  validate_timezone : string -> bool;
  validate_azure_vm_sku : string -> bool;
}.

Definition invalid (field : string) (v : pyval) : exn :=
  ValueError ("Invalid value for '" ++ field ++ "' (" ++ py_str v ++ ").").

(** [try: check(str(v)) except Exception: raise ValueError(...)] *)
Definition guard (ok : bool) (field : string) (v : pyval) : result unit :=
  if ok then Ok tt else Err (invalid field v).

(** [for ip in xs: check(str(ip))]; iterating a non-iterable raises, and
    the [except Exception] turns that into the same [ValueError]. *)
Definition guard_all (check : string -> bool) (field : string) (xs : pyval)
  : result unit :=
  match xs with
  | PList l => guard (forallb (fun ip => check (py_str ip)) l) field xs
  | PDict kv => guard (forallb (fun kv => check (fst kv)) kv) field xs
  | PStr s => guard (forallb (fun c => check (String (c : Ascii.ascii) EmptyString))
                       (list_ascii_of_string s)) field xs
  | _ => Err (invalid field xs)
  end.

(** [isinstance(v, str) and v]: the guard of SHM [fqdn]/[name] and of
    Pulumi [encryption_key_id]. *)
Definition nonempty_str (v : pyval) : bool :=
  match v with PStr s => negb (String.eqb s "") | _ => false end.

Definition is_bool (v : pyval) : bool :=
  match v with PBool _ => true | _ => false end.

(* ------------------------------------------------------------------ *)
(** ** Config sections (config/config.py)

    A [TypeChecked] field is kept as its raw [__dict__] entry ([pyval]);
    other fields with their Python types. *)

Import TypeChecked.

Definition tc (t : pytype) (dflt : option pyval) (n : string) : descriptor :=
  {| wrapped := t; default := dflt; dname := Some n |}.

Record ConfigSectionAzure := {
  admin_group_id : pyval;
  location : pyval;
  subscription_id : pyval;
  tenant_id : pyval;
}.

Record ConfigSectionBackend := {
  key_vault_name : pyval;
  managed_identity_name : pyval;
  resource_group_name : pyval;
  storage_account_name : pyval;
  storage_container_name : pyval;
}.

Record ConfigSectionPulumi := {
  encryption_key_id : pyval;
  encryption_key_name : pyval;
  stacks : gmap string string;
  pulumi_storage_container_name : pyval;
}.

Record ConfigSectionSHM := {
  aad_tenant_id : pyval;
  admin_email_address : pyval;
  admin_ip_addresses : pyval;
  fqdn : pyval;
  shm_name : pyval;
  timezone : pyval;
}.

Record ConfigSubsectionRemoteDesktopOpts := {
  allow_copy : pyval;
  allow_paste : pyval;
}.

Record ConfigSubsectionResearchDesktopOpts := { sku : string }.

(** [utility/enums.py] is outside src/: the members of
    [SoftwarePackageCategory] and the values chili encodes them by. *)
Inductive SoftwarePackageCategory := ANY | PRE_APPROVED | NONE.

Definition software_value (c : SoftwarePackageCategory) : string :=
  match c with ANY => "any" | PRE_APPROVED => "pre-approved" | NONE => "none" end.

Definition software_of_value (s : string) : result SoftwarePackageCategory :=
  if String.eqb s "any" then Ok ANY
  else if String.eqb s "pre-approved" then Ok PRE_APPROVED
  else if String.eqb s "none" then Ok NONE
  else Err DecoderError.

Record ConfigSectionSRE := {
  data_provider_ip_addresses : pyval;
  index : pyval;
  remote_desktop : ConfigSubsectionRemoteDesktopOpts;
  research_desktops : gmap string ConfigSubsectionResearchDesktopOpts;
  research_user_ip_addresses : pyval;
  software_packages : SoftwarePackageCategory;
}.

Record ConfigSectionTags := {
  deployment : string;
  deployed_by : string;
  project : string;
  version : string;
}.

(** The descriptors declared on the section classes. *)
Definition d_admin_group_id := tc TStr None "admin_group_id".
Definition d_location := tc TStr None "location".
Definition d_subscription_id := tc TStr None "subscription_id".
Definition d_tenant_id := tc TStr None "tenant_id".
Definition d_key_vault_name := tc TStr None "key_vault_name".
Definition d_managed_identity_name := tc TStr None "managed_identity_name".
Definition d_resource_group_name := tc TStr None "resource_group_name".
Definition d_storage_account_name := tc TStr None "storage_account_name".
Definition d_storage_container_name := tc TStr None "storage_container_name".
Definition d_encryption_key_id := tc TStr None "encryption_key_id".
Definition d_encryption_key_name :=
  tc TStr (Some (PStr "pulumi-encryption-key")) "encryption_key_name".
Definition d_pulumi_storage_container_name :=
  tc TStr (Some (PStr "pulumi")) "storage_container_name".
Definition d_aad_tenant_id := tc TStr None "aad_tenant_id".
Definition d_admin_email_address := tc TStr None "admin_email_address".
Definition d_fqdn := tc TStr None "fqdn".
Definition d_shm_name := tc TStr None "name".
Definition d_timezone := tc TStr None "timezone".
Definition d_allow_copy := tc TBool None "allow_copy".
Definition d_allow_paste := tc TBool None "allow_paste".
Definition d_index := tc TInt (Some (PInt 0)) "index".

(** [self.x = value] and the dataclass [__init__] of a [TypeChecked]
    field: an argument that is not given takes the class default. *)
Definition field_init (d : descriptor) (arg : option pyval) : result pyval :=
  v <- (match arg with Some v => Ok v | None => class_default d end) ;;
  write d v.

(** *** Constructors (dataclass [__init__]) *)

Definition ConfigSectionAzure_new (agi loc sub ten : option pyval)
  : result ConfigSectionAzure :=
  a <- field_init d_admin_group_id agi ;;
  l <- field_init d_location loc ;;
  s <- field_init d_subscription_id sub ;;
  t <- field_init d_tenant_id ten ;;
  Ok {| admin_group_id := a; location := l; subscription_id := s; tenant_id := t |}.

Definition ConfigSectionBackend_new (kv mi rg sa sc : option pyval)
  : result ConfigSectionBackend :=
  a <- field_init d_key_vault_name kv ;;
  b <- field_init d_managed_identity_name mi ;;
  c <- field_init d_resource_group_name rg ;;
  d <- field_init d_storage_account_name sa ;;
  e <- field_init d_storage_container_name sc ;;
  Ok {| key_vault_name := a; managed_identity_name := b; resource_group_name := c;
        storage_account_name := d; storage_container_name := e |}.

Definition ConfigSectionPulumi_new (eki ekn : option pyval)
  (st : option (gmap string string)) (sc : option pyval) : result ConfigSectionPulumi :=
  a <- field_init d_encryption_key_id eki ;;
  b <- field_init d_encryption_key_name ekn ;;
  c <- field_init d_pulumi_storage_container_name sc ;;
  Ok {| encryption_key_id := a; encryption_key_name := b;
        stacks := match st with Some m => m | None => ∅ end;
        pulumi_storage_container_name := c |}.

Definition ConfigSectionSHM_new (ati aea : option pyval) (aia : option pyval)
  (fq nm tz : option pyval) : result ConfigSectionSHM :=
  a <- field_init d_aad_tenant_id ati ;;
  b <- field_init d_admin_email_address aea ;;
  c <- field_init d_fqdn fq ;;
  d <- field_init d_shm_name nm ;;
  e <- field_init d_timezone tz ;;
  Ok {| aad_tenant_id := a; admin_email_address := b;
        admin_ip_addresses := match aia with Some l => l | None => PList [] end;
        fqdn := c; shm_name := d; timezone := e |}.

Definition ConfigSubsectionRemoteDesktopOpts_new (ac ap : option pyval)
  : result ConfigSubsectionRemoteDesktopOpts :=
  a <- field_init d_allow_copy ac ;;
  b <- field_init d_allow_paste ap ;;
  Ok {| allow_copy := a; allow_paste := b |}.

Definition ConfigSectionSRE_new (dpi idx : option pyval)
  (rd : option ConfigSubsectionRemoteDesktopOpts)
  (rds : option (gmap string ConfigSubsectionResearchDesktopOpts))
  (rui : option pyval) (sp : option SoftwarePackageCategory) : result ConfigSectionSRE :=
  i <- field_init d_index idx ;;
  r <- (match rd with
        | Some r => Ok r
        | None => ConfigSubsectionRemoteDesktopOpts_new None None
        end) ;;
  Ok {| data_provider_ip_addresses := match dpi with Some l => l | None => PList [] end;
        index := i;
        remote_desktop := r;
        research_desktops := match rds with Some m => m | None => ∅ end;
        research_user_ip_addresses := match rui with Some l => l | None => PList [] end;
        software_packages := match sp with Some c => c | None => NONE end |}.

(** [data_safe_haven.__version__]. *)
Definition __version__ : string := "5.0.0".

Definition ConfigSectionTags_new (dep : string) : ConfigSectionTags :=
  {| deployment := dep; deployed_by := "Python"; project := "Data Safe Haven";
     version := __version__ |}.

(** *** [validate] *)

Section Validate.
Variable V : validators.

Definition validate_azure (a : ConfigSectionAzure) : result unit :=
  v1 <- read d_admin_group_id (admin_group_id a) ;;
  _u1 <- guard (validate_aad_guid V (py_str v1)) "admin_group_id" v1 ;;
  v2 <- read d_location (location a) ;;
  _u2 <- guard (validate_azure_location V (py_str v2)) "location" v2 ;;
  v3 <- read d_subscription_id (subscription_id a) ;;
  _u3 <- guard (validate_aad_guid V (py_str v3)) "subscription_id" v3 ;;
  v4 <- read d_tenant_id (tenant_id a) ;;
  guard (validate_aad_guid V (py_str v4)) "tenant_id" v4.

(** [if not self.x: raise ValueError(...)] *)
Definition truthy_guard (d : descriptor) (field : string) (raw : pyval) : result unit :=
  v <- read d raw ;;
  if py_truthy v then Ok tt else Err (invalid field v).

Definition validate_backend (b : ConfigSectionBackend) : result unit :=
  _u1 <- truthy_guard d_key_vault_name "key_vault_name" (key_vault_name b) ;;
  _u2 <- truthy_guard d_managed_identity_name "managed_identity_name"
           (managed_identity_name b) ;;
  _u3 <- truthy_guard d_resource_group_name "resource_group_name" (resource_group_name b) ;;
  _u4 <- truthy_guard d_storage_account_name "storage_account_name"
           (storage_account_name b) ;;
  truthy_guard d_storage_container_name "storage_container_name"
    (storage_container_name b).

(** [if not isinstance(self.x, str) or not self.x: raise ValueError(...)] *)
Definition str_guard (d : descriptor) (field : string) (raw : pyval) : result unit :=
  v <- read d raw ;;
  if nonempty_str v then Ok tt else Err (invalid field v).

Definition validate_pulumi (p : ConfigSectionPulumi) : result unit :=
  str_guard d_encryption_key_id "encryption_key_id" (encryption_key_id p).

Definition validate_shm (s : ConfigSectionSHM) : result unit :=
  v1 <- read d_aad_tenant_id (aad_tenant_id s) ;;
  _u1 <- guard (validate_aad_guid V (py_str v1)) "aad_tenant_id" v1 ;;
  v2 <- read d_admin_email_address (admin_email_address s) ;;
  _u2 <- guard (validate_email_address V (py_str v2)) "admin_email_address" v2 ;;
  _u3 <- guard_all (validate_ip_address V) "admin_ip_addresses" (admin_ip_addresses s) ;;
  _u4 <- str_guard d_fqdn "fqdn" (fqdn s) ;;
  _u5 <- str_guard d_shm_name "name" (shm_name s) ;;
  v6 <- read d_timezone (timezone s) ;;
  guard (validate_timezone V (py_str v6)) "timezone" v6.

Definition validate_remote_desktop (r : ConfigSubsectionRemoteDesktopOpts) : result unit :=
  v1 <- read d_allow_copy (allow_copy r) ;;
  _u1 <- (if is_bool v1 then Ok tt else Err (invalid "allow_copy" v1)) ;;
  v2 <- read d_allow_paste (allow_paste r) ;;
  if is_bool v2 then Ok tt else Err (invalid "allow_paste" v2).

Definition validate_research_desktop (r : ConfigSubsectionResearchDesktopOpts) : result unit :=
  guard (validate_azure_vm_sku V (sku r)) "sku" (PStr (sku r)).

Definition validate_sre (s : ConfigSectionSRE) : result unit :=
  _u1 <- guard_all (validate_ip_address V) "data_provider_ip_addresses"
           (data_provider_ip_addresses s) ;;
  _u2 <- validate_remote_desktop (remote_desktop s) ;;
  _u3 <- mapM validate_research_desktop (map snd (map_to_list (research_desktops s))) ;;
  guard_all (validate_ip_address V) "research_user_ip_addresses"
    (research_user_ip_addresses s).

Definition validate_tags (t : ConfigSectionTags) : result unit :=
  if String.eqb (deployment t) "" then Err (invalid "deployment" (PStr (deployment t)))
  else Ok tt.

End Validate.

(** *** [to_dict]: validate, then [as_dict(chili.encode(self, encoders=encoders))]

    [EncoderTypeChecked] returns the value it is given, so a [TypeChecked]
    field is encoded as what reading it returns and a
    [list[TypeChecked[str]]] field as the stored list. *)

(** Modelled from the spec: [as_dict] (functions/, outside src/) hands
    back the encoded mapping ("flattens to a plain ordered mapping") and
    refuses anything that is not a mapping. *)
Definition as_dict (v : pyval) : result pyval :=
  match v with PDict _ => Ok v | _ => Err TypeError end.

Definition encode_azure (a : ConfigSectionAzure) : result pyval :=
  v1 <- read d_admin_group_id (admin_group_id a) ;;
  v2 <- read d_location (location a) ;;
  v3 <- read d_subscription_id (subscription_id a) ;;
  v4 <- read d_tenant_id (tenant_id a) ;;
  Ok (PDict [("admin_group_id", v1); ("location", v2);
             ("subscription_id", v3); ("tenant_id", v4)]).

Definition encode_backend (b : ConfigSectionBackend) : result pyval :=
  v1 <- read d_key_vault_name (key_vault_name b) ;;
  v2 <- read d_managed_identity_name (managed_identity_name b) ;;
  v3 <- read d_resource_group_name (resource_group_name b) ;;
  v4 <- read d_storage_account_name (storage_account_name b) ;;
  v5 <- read d_storage_container_name (storage_container_name b) ;;
  Ok (PDict [("key_vault_name", v1); ("managed_identity_name", v2);
             ("resource_group_name", v3); ("storage_account_name", v4);
             ("storage_container_name", v5)]).

Definition encode_str_dict (m : gmap string string) : pyval :=
  PDict (map (fun kv => (kv.1, PStr kv.2)) (map_to_list m)).

Definition encode_pulumi (p : ConfigSectionPulumi) : result pyval :=
  v1 <- read d_encryption_key_id (encryption_key_id p) ;;
  v2 <- read d_encryption_key_name (encryption_key_name p) ;;
  v4 <- read d_pulumi_storage_container_name (pulumi_storage_container_name p) ;;
  Ok (PDict [("encryption_key_id", v1); ("encryption_key_name", v2);
             ("stacks", encode_str_dict (stacks p)); ("storage_container_name", v4)]).

Definition encode_shm (s : ConfigSectionSHM) : result pyval :=
  v1 <- read d_aad_tenant_id (aad_tenant_id s) ;;
  v2 <- read d_admin_email_address (admin_email_address s) ;;
  v4 <- read d_fqdn (fqdn s) ;;
  v5 <- read d_shm_name (shm_name s) ;;
  v6 <- read d_timezone (timezone s) ;;
  Ok (PDict [("aad_tenant_id", v1); ("admin_email_address", v2);
             ("admin_ip_addresses", admin_ip_addresses s); ("fqdn", v4);
             ("name", v5); ("timezone", v6)]).

Definition encode_remote_desktop (r : ConfigSubsectionRemoteDesktopOpts) : result pyval :=
  v1 <- read d_allow_copy (allow_copy r) ;;
  v2 <- read d_allow_paste (allow_paste r) ;;
  Ok (PDict [("allow_copy", v1); ("allow_paste", v2)]).

Definition encode_research_desktops (m : gmap string ConfigSubsectionResearchDesktopOpts)
  : pyval :=
  PDict (map (fun kv => (kv.1, PDict [("sku", PStr (sku kv.2))])) (map_to_list m)).

Definition encode_sre (s : ConfigSectionSRE) : result pyval :=
  v2 <- read d_index (index s) ;;
  v3 <- encode_remote_desktop (remote_desktop s) ;;
  Ok (PDict [("data_provider_ip_addresses", data_provider_ip_addresses s);
             ("index", v2); ("remote_desktop", v3);
             ("research_desktops", encode_research_desktops (research_desktops s));
             ("research_user_ip_addresses", research_user_ip_addresses s);
             ("software_packages", PStr (software_value (software_packages s)))]).

Definition encode_tags (t : ConfigSectionTags) : pyval :=
  PDict [("deployment", PStr (deployment t)); ("deployed_by", PStr (deployed_by t));
         ("project", PStr (project t)); ("version", PStr (version t))].

Section ToDict.
Variable V : validators.

Definition azure_to_dict (a : ConfigSectionAzure) : result pyval :=
  _u <- validate_azure V a ;; e <- encode_azure a ;; as_dict e.
Definition backend_to_dict (b : ConfigSectionBackend) : result pyval :=
  _u <- validate_backend b ;; e <- encode_backend b ;; as_dict e.
Definition pulumi_to_dict (p : ConfigSectionPulumi) : result pyval :=
  _u <- validate_pulumi p ;; e <- encode_pulumi p ;; as_dict e.
Definition shm_to_dict (s : ConfigSectionSHM) : result pyval :=
  _u <- validate_shm V s ;; e <- encode_shm s ;; as_dict e.
Definition sre_to_dict (s : ConfigSectionSRE) : result pyval :=
  _u <- validate_sre V s ;; e <- encode_sre s ;; as_dict e.
Definition tags_to_dict (t : ConfigSectionTags) : result pyval :=
  _u <- validate_tags t ;; as_dict (encode_tags t).

End ToDict.

(** *** [chili.decode(value, Section, decoders=decoders)]

    A section is decoded from a mapping: each field present is passed on
    ([DecoderTypeChecked] returns its input) and each absent one takes its
    dataclass default, through the section's constructor. *)

Fixpoint assoc (k : string) (kv : list (string * pyval)) : option pyval :=
  match kv with
  | [] => None
  | (k', v) :: kv' => if String.eqb k k' then Some v else assoc k kv'
  end.

Definition as_mapping (v : pyval) : result (list (string * pyval)) :=
  match v with PDict kv => Ok kv | _ => Err DecoderError end.

(** A Python dict built by inserting the pairs in order. *)
Definition dict_of_list {A} (l : list (string * A)) : gmap string A :=
  fold_left (fun m kv => <[kv.1 := kv.2]> m) l ∅.

Definition decode_str (v : pyval) : result string :=
  match v with PStr s => Ok s | _ => Err DecoderError end.

Definition decode_str_dict (v : pyval) : result (gmap string string) :=
  kv <- as_mapping v ;;
  l <- mapM (fun kv => s <- decode_str kv.2 ;; Ok (kv.1, s)) kv ;;
  Ok (dict_of_list l).

Definition decode_azure (v : pyval) : result ConfigSectionAzure :=
  kv <- as_mapping v ;;
  ConfigSectionAzure_new (assoc "admin_group_id" kv) (assoc "location" kv)
    (assoc "subscription_id" kv) (assoc "tenant_id" kv).

Definition decode_backend (v : pyval) : result ConfigSectionBackend :=
  kv <- as_mapping v ;;
  ConfigSectionBackend_new (assoc "key_vault_name" kv) (assoc "managed_identity_name" kv)
    (assoc "resource_group_name" kv) (assoc "storage_account_name" kv)
    (assoc "storage_container_name" kv).

Definition decode_pulumi (v : pyval) : result ConfigSectionPulumi :=
  kv <- as_mapping v ;;
  st <- (match assoc "stacks" kv with
         | Some s => m <- decode_str_dict s ;; Ok (Some m)
         | None => Ok None
         end) ;;
  ConfigSectionPulumi_new (assoc "encryption_key_id" kv) (assoc "encryption_key_name" kv)
    st (assoc "storage_container_name" kv).

Definition decode_shm (v : pyval) : result ConfigSectionSHM :=
  kv <- as_mapping v ;;
  ConfigSectionSHM_new (assoc "aad_tenant_id" kv) (assoc "admin_email_address" kv)
    (assoc "admin_ip_addresses" kv) (assoc "fqdn" kv) (assoc "name" kv)
    (assoc "timezone" kv).

Definition decode_remote_desktop (v : pyval) : result ConfigSubsectionRemoteDesktopOpts :=
  kv <- as_mapping v ;;
  ConfigSubsectionRemoteDesktopOpts_new (assoc "allow_copy" kv) (assoc "allow_paste" kv).

Definition decode_research_desktop (v : pyval) : result ConfigSubsectionResearchDesktopOpts :=
  kv <- as_mapping v ;;
  s <- (match assoc "sku" kv with Some s => decode_str s | None => Ok "" end) ;;
  Ok {| sku := s |}.

Definition decode_sre (v : pyval) : result ConfigSectionSRE :=
  kv <- as_mapping v ;;
  rd <- (match assoc "remote_desktop" kv with
         | Some r => x <- decode_remote_desktop r ;; Ok (Some x)
         | None => Ok None
         end) ;;
  rds <- (match assoc "research_desktops" kv with
          | Some r =>
              l <- as_mapping r ;;
              l' <- mapM (fun kv => x <- decode_research_desktop kv.2 ;; Ok (kv.1, x)) l ;;
              Ok (Some (dict_of_list l'))
          | None => Ok None
          end) ;;
  sp <- (match assoc "software_packages" kv with
         | Some s => x <- decode_str s ;; c <- software_of_value x ;; Ok (Some c)
         | None => Ok None
         end) ;;
  ConfigSectionSRE_new (assoc "data_provider_ip_addresses" kv) (assoc "index" kv)
    rd rds (assoc "research_user_ip_addresses" kv) sp.

(* ------------------------------------------------------------------ *)
(** ** The configuration document: [Config] *)

(** The fields of [BackendSettings()] that [Config.__init__] reads
    (config/backend_settings.py, outside src/). *)
Record BackendSettings := {
  settings_name : string;
  settings_subscription_name : string;
  settings_location : string;
  settings_admin_group_id : string;
}.

(** Modelled from the spec: [alphanumeric] (functions/, outside src/),
    followed by [.lower()]: "Sanitization lowercases and strips to
    alphanumeric". *)
Definition alnum_lower (s : string) : string :=
  string_of_list_ascii
    (omap (fun c : Ascii.ascii =>
             let n := Ascii.nat_of_ascii c in
             if (48 <=? n)%nat && (n <=? 57)%nat then Some c
             else if (97 <=? n)%nat && (n <=? 122)%nat then Some c
             else if (65 <=? n)%nat && (n <=? 90)%nat then Some (Ascii.ascii_of_nat (n + 32))
             else None)
       (list_ascii_of_string s)).

Record Config := {
  azure_ : option ConfigSectionAzure;
  backend_ : option ConfigSectionBackend;
  pulumi_ : option ConfigSectionPulumi;
  shm_ : option ConfigSectionSHM;
  tags_ : option ConfigSectionTags;
  sres : gmap string ConfigSectionSRE;
  name : string;
  shm_name_ : string;
  backend_resource_group_name : string;
  backend_storage_account_name : string;
  backend_storage_container_name : string;
}.

(** Assignments to one attribute of a [Config]. *)
Definition set_azure_ (c : Config) (x : option ConfigSectionAzure) : Config :=
  {| azure_ := x; backend_ := backend_ c; pulumi_ := pulumi_ c; shm_ := shm_ c;
     tags_ := tags_ c; sres := sres c; name := name c; shm_name_ := shm_name_ c;
     backend_resource_group_name := backend_resource_group_name c;
     backend_storage_account_name := backend_storage_account_name c;
     backend_storage_container_name := backend_storage_container_name c |}.
Definition set_backend_ (c : Config) (x : option ConfigSectionBackend) : Config :=
  {| azure_ := azure_ c; backend_ := x; pulumi_ := pulumi_ c; shm_ := shm_ c;
     tags_ := tags_ c; sres := sres c; name := name c; shm_name_ := shm_name_ c;
     backend_resource_group_name := backend_resource_group_name c;
     backend_storage_account_name := backend_storage_account_name c;
     backend_storage_container_name := backend_storage_container_name c |}.
Definition set_pulumi_ (c : Config) (x : option ConfigSectionPulumi) : Config :=
  {| azure_ := azure_ c; backend_ := backend_ c; pulumi_ := x; shm_ := shm_ c;
     tags_ := tags_ c; sres := sres c; name := name c; shm_name_ := shm_name_ c;
     backend_resource_group_name := backend_resource_group_name c;
     backend_storage_account_name := backend_storage_account_name c;
     backend_storage_container_name := backend_storage_container_name c |}.
Definition set_shm_ (c : Config) (x : option ConfigSectionSHM) : Config :=
  {| azure_ := azure_ c; backend_ := backend_ c; pulumi_ := pulumi_ c; shm_ := x;
     tags_ := tags_ c; sres := sres c; name := name c; shm_name_ := shm_name_ c;
     backend_resource_group_name := backend_resource_group_name c;
     backend_storage_account_name := backend_storage_account_name c;
     backend_storage_container_name := backend_storage_container_name c |}.
Definition set_tags_ (c : Config) (x : option ConfigSectionTags) : Config :=
  {| azure_ := azure_ c; backend_ := backend_ c; pulumi_ := pulumi_ c; shm_ := shm_ c;
     tags_ := x; sres := sres c; name := name c; shm_name_ := shm_name_ c;
     backend_resource_group_name := backend_resource_group_name c;
     backend_storage_account_name := backend_storage_account_name c;
     backend_storage_container_name := backend_storage_container_name c |}.
Definition set_sres (c : Config) (x : gmap string ConfigSectionSRE) : Config :=
  {| azure_ := azure_ c; backend_ := backend_ c; pulumi_ := pulumi_ c; shm_ := shm_ c;
     tags_ := tags_ c; sres := x; name := name c; shm_name_ := shm_name_ c;
     backend_resource_group_name := backend_resource_group_name c;
     backend_storage_account_name := backend_storage_account_name c;
     backend_storage_container_name := backend_storage_container_name c |}.

(** *** Section properties: create on first access

    [if not self.x_:] tests for [None]: a dataclass instance is always
    true. Each property returns the updated document and the section. *)

Definition azure (c : Config) : result (Config * ConfigSectionAzure) :=
  match azure_ c with
  | Some a => Ok (c, a)
  | None => a <- ConfigSectionAzure_new None None None None ;; Ok (set_azure_ c (Some a), a)
  end.

Definition backend (c : Config) : result (Config * ConfigSectionBackend) :=
  match backend_ c with
  | Some b => Ok (c, b)
  | None =>
      b <- ConfigSectionBackend_new
             (Some (PStr ("shm-" ++ substring 0 9 (shm_name_ c) ++ "-kv-backend")))
             (Some (PStr ("shm-" ++ shm_name_ c ++ "-identity-reader-backend")))
             (Some (PStr (backend_resource_group_name c)))
             (Some (PStr (backend_storage_account_name c)))
             (Some (PStr (backend_storage_container_name c))) ;;
      Ok (set_backend_ c (Some b), b)
  end.

Definition pulumi (c : Config) : result (Config * ConfigSectionPulumi) :=
  match pulumi_ c with
  | Some p => Ok (c, p)
  | None => p <- ConfigSectionPulumi_new None None None None ;; Ok (set_pulumi_ c (Some p), p)
  end.

Definition shm (c : Config) : result (Config * ConfigSectionSHM) :=
  match shm_ c with
  | Some s => Ok (c, s)
  | None =>
      s <- ConfigSectionSHM_new None None None None (Some (PStr (shm_name_ c))) None ;;
      Ok (set_shm_ c (Some s), s)
  end.

Definition tags (c : Config) : Config * ConfigSectionTags :=
  match tags_ c with
  | Some t => (c, t)
  | None => let t := ConfigSectionTags_new (name c) in (set_tags_ c (Some t), t)
  end.

(** *** [remove_sre], [remove_stack] and [sre] *)

Definition remove_sre (nm : string) (c : Config) : Config :=
  match sres c !! nm with
  | Some _ => set_sres c (delete nm (sres c))
  | None => c
  end.

(** [self.pulumi.stacks] is evaluated (and the section created) before
    the membership test; [del] then mutates that same dict. *)
Definition remove_stack (nm : string) (c : Config) : result Config :=
  '(c1, p) <- pulumi c ;;
  match stacks p !! nm with
  | Some _ =>
      let p' := {| encryption_key_id := encryption_key_id p;
                   encryption_key_name := encryption_key_name p;
                   stacks := delete nm (stacks p);
                   pulumi_storage_container_name := pulumi_storage_container_name p |} in
      Ok (set_pulumi_ c1 (Some p'))
  | None => Ok c1
  end.

(** [int(sre.index)] *)
Definition sre_index_int (s : ConfigSectionSRE) : result Z :=
  v <- read d_index (index s) ;;
  match v with
  | PInt z => Ok z
  | PBool b => Ok (if b then 1 else 0)%Z
  | _ => Err TypeError
  end.

(** [[int(sre.index) for sre in self.sres.values()]] *)
Definition sre_indices (c : Config) : result (list Z) :=
  mapM sre_index_int (map snd (map_to_list (sres c))).

(** [max([0] + xs)] *)
Definition py_max0 (xs : list Z) : Z := fold_right Z.max 0%Z xs.

Definition with_index (s : ConfigSectionSRE) (i : pyval) : ConfigSectionSRE :=
  {| data_provider_ip_addresses := data_provider_ip_addresses s; index := i;
     remote_desktop := remote_desktop s; research_desktops := research_desktops s;
     research_user_ip_addresses := research_user_ip_addresses s;
     software_packages := software_packages s |}.

(** [self.sres] is a [defaultdict(ConfigSectionSRE)]: [self.sres[name]]
    inserts a default section, whose [index] is then assigned. *)
Definition sre (nm : string) (c : Config) : result (Config * ConfigSectionSRE) :=
  match sres c !! nm with
  | Some s => Ok (c, s)
  | None =>
      idxs <- sre_indices c ;;
      let highest_index := py_max0 idxs in
      s0 <- ConfigSectionSRE_new None None None None None None ;;
      i <- write d_index (PInt (highest_index + 1)) ;;
      let s := with_index s0 i in
      Ok (set_sres c (<[nm := s]> (sres c)), s)
  end.

(** *** [ConfigSectionSRE.set_research_desktops] *)

Fixpoint insert_sorted (x : string) (l : list string) : list string :=
  match l with
  | [] => [x]
  | y :: l' => if String.leb x y then x :: l else y :: insert_sorted x l'
  end.

(** Python's [sorted] on a list of strings. *)
Fixpoint py_sorted (l : list string) : list string :=
  match l with
  | [] => []
  | x :: l' => insert_sorted x (py_sorted l')
  end.

(** [f"{n:02d}"] *)
Definition fmt02 (n : nat) : string :=
  if (n <? 10)%nat then "0" ++ pretty n else pretty n.

Definition workspace_key (idx : nat) : string := "workspace-" ++ fmt02 idx.

(** The [for idx, vm_sku in enumerate(research_desktops)] loop. *)
Fixpoint fill_research_desktops (idx : nat) (skus : list string)
    (m : gmap string ConfigSubsectionResearchDesktopOpts)
  : gmap string ConfigSubsectionResearchDesktopOpts :=
  match skus with
  | [] => m
  | vm_sku :: rest =>
      fill_research_desktops (S idx) rest (<[workspace_key idx := {| sku := vm_sku |}]> m)
  end.

Definition set_research_desktops (skus : list string) (s : ConfigSectionSRE)
  : ConfigSectionSRE :=
  if bool_decide (py_sorted skus = py_sorted (map fst (map_to_list (research_desktops s))))
  then s
  else {| data_provider_ip_addresses := data_provider_ip_addresses s; index := index s;
          remote_desktop := remote_desktop s;
          research_desktops := fill_research_desktops 0 skus ∅;
          research_user_ip_addresses := research_user_ip_addresses s;
          software_packages := software_packages s |}.

(* ------------------------------------------------------------------ *)
(** ** The YAML document *)

(** A YAML text, represented by what [yaml.safe_load] makes of it: the
    plain value it parses to, or the error it raises. *)
Inductive yaml_text :=
  | YamlDoc (v : pyval)
  | YamlMalformed (e : exn).

(** Values [yaml.safe_load] can rebuild: no arbitrary Python object. *)
Fixpoint plain (v : pyval) : bool :=
  match v with
  | PTypeChecked => false
  | PList l => forallb plain l
  | PDict kv => forallb (fun kv => plain kv.2) kv
  | _ => true
  end.

(** [yaml.dump]: an arbitrary object is written with a [!!python/object]
    tag, which [yaml.safe_load] refuses. (The dumper also sorts mapping
    keys; every mapping is read back by key, so the order is not kept.) *)
Definition yaml_dump (v : pyval) : yaml_text :=
  if plain v then YamlDoc v else YamlMalformed ConstructorError.

Definition yaml_safe_load (t : yaml_text) : result pyval :=
  match t with YamlDoc v => Ok v | YamlMalformed e => Err e end.

(** *** [Config.__str__] *)

Section Serialise.
Variable V : validators.

Definition sres_to_dict (m : gmap string ConfigSectionSRE)
  : result (list (string * pyval)) :=
  mapM (fun kv => d <- sre_to_dict V kv.2 ;; Ok (kv.1, d)) (map_to_list m).

Definition config_str (c : Config) : result (Config * yaml_text) :=
  p1 <- (match azure_ c with
         | Some a => d <- azure_to_dict V a ;; Ok [("azure", d)]
         | None => Ok [] end) ;;
  p2 <- (match backend_ c with
         | Some b => d <- backend_to_dict b ;; Ok [("backend", d)]
         | None => Ok [] end) ;;
  p3 <- (match pulumi_ c with
         | Some p => d <- pulumi_to_dict p ;; Ok [("pulumi", d)]
         | None => Ok [] end) ;;
  p4 <- (match shm_ c with
         | Some s => d <- shm_to_dict V s ;; Ok [("shm", d)]
         | None => Ok [] end) ;;
  p5 <- (if bool_decide (sres c = ∅) then Ok []
         else l <- sres_to_dict (sres c) ;; Ok [("sre", PDict l)]) ;;
  (* [if self.tags:] goes through the property, which creates the section *)
  let '(c', t) := tags c in
  d <- tags_to_dict t ;;
  Ok (c', yaml_dump (PDict (p1 ++ p2 ++ p3 ++ p4 ++ p5 ++ [("tags", d)]))).

End Serialise.

(** *** [Config.__init__] *)

(** [key in yaml_input]: a dict tests its keys, a list its elements, a
    string its substrings; other values raise [TypeError]. *)
Definition py_contains (y : pyval) (key : string) : result bool :=
  match y with
  | PDict kv => Ok (bool_decide (is_Some (assoc key kv)))
  | PList l => Ok (existsb (fun x => match x with PStr s => String.eqb s key | _ => false end) l)
  | PStr s => Ok (bool_decide (is_Some (String.index 0 key s)))
  | _ => Err TypeError
  end.

(** [yaml_input[key]] with a string key. *)
Definition py_getitem (y : pyval) (key : string) : result pyval :=
  match y with
  | PDict kv => match assoc key kv with Some v => Ok v | None => Err KeyError end
  | _ => Err TypeError
  end.

(** [dict(v).items()]: from a dict, or from a list of key/value pairs. *)
Definition py_dict_items (v : pyval) : result (list (string * pyval)) :=
  match v with
  | PDict kv => Ok kv
  | PList l =>
      mapM (fun x => match x with
                     | PList [PStr k; w] => Ok (k, w)
                     | _ => Err TypeError
                     end) l
  | _ => Err TypeError
  end.

Fixpoint decode_sres (items : list (string * pyval)) (m : gmap string ConfigSectionSRE)
  : result (gmap string ConfigSectionSRE) :=
  match items with
  | [] => Ok m
  | (k, v) :: rest => s <- decode_sre v ;; decode_sres rest (<[k := s]> m)
  end.

(** The [if yaml_input:] block. *)
Definition decode_sections (c : Config) (y : pyval) : result Config :=
  b1 <- py_contains y "azure" ;;
  c1 <- (if b1 then v <- py_getitem y "azure" ;; a <- decode_azure v ;;
                    Ok (set_azure_ c (Some a)) else Ok c) ;;
  b2 <- py_contains y "backend" ;;
  c2 <- (if b2 then v <- py_getitem y "backend" ;; b <- decode_backend v ;;
                    Ok (set_backend_ c1 (Some b)) else Ok c1) ;;
  b3 <- py_contains y "pulumi" ;;
  c3 <- (if b3 then v <- py_getitem y "pulumi" ;; p <- decode_pulumi v ;;
                    Ok (set_pulumi_ c2 (Some p)) else Ok c2) ;;
  b4 <- py_contains y "shm" ;;
  c4 <- (if b4 then v <- py_getitem y "shm" ;; s <- decode_shm v ;;
                    Ok (set_shm_ c3 (Some s)) else Ok c3) ;;
  b5 <- py_contains y "sre" ;;
  if b5 then v <- py_getitem y "sre" ;; items <- py_dict_items v ;;
             m <- decode_sres items (sres c4) ;; Ok (set_sres c4 m)
  else Ok c4.

(** Everything [__init__] does before it touches the blob. *)
Definition config_base (st : BackendSettings) : result Config :=
  a0 <- ConfigSectionAzure_new None None None None ;;
  l <- write d_location (PStr (settings_location st)) ;;
  g <- write d_admin_group_id (PStr (settings_admin_group_id st)) ;;
  let shm_name := alnum_lower (settings_name st) in
  Ok {| azure_ := Some {| admin_group_id := g; location := l;
                          subscription_id := subscription_id a0; tenant_id := tenant_id a0 |};
        backend_ := None; pulumi_ := None; shm_ := None; tags_ := None; sres := ∅;
        name := settings_name st; shm_name_ := shm_name;
        backend_resource_group_name := "shm-" ++ shm_name ++ "-rg-backend";
        backend_storage_account_name := "shm" ++ substring 0 14 shm_name ++ "backend";
        backend_storage_container_name := "config" |}.

(** [with suppress(DataSafeHavenAzureError, ParserError):] around the
    assignment: on those errors [yaml_input] keeps its value [{}]. *)
Definition suppress_load (m : result pyval) : result pyval :=
  match m with
  | Err DataSafeHavenAzureError | Err ParserError => Ok (PDict [])
  | _ => m
  end.

(** [Config()], given what [download_blob] returns for the document's
    blob: its text, or the error it raises. *)
Definition config_init (st : BackendSettings) (download : result yaml_text) : result Config :=
  c0 <- config_base st ;;
  yaml_input <- suppress_load (t <- download ;; yaml_safe_load t) ;;
  if py_truthy yaml_input then decode_sections c0 yaml_input else Ok c0.

(** [Config()] reading back the text [config_str] produced. *)
Definition roundtrip (V : validators) (st : BackendSettings) (c : Config)
  : result (Config * Config) :=
  '(c', t) <- config_str V c ;;
  d <- config_init st (Ok t) ;;
  Ok (c', d).

(** Modelled from the spec: [AzureApi.download_blob] (external/, outside
    src/) "-> text | NotFound", with storage errors wrapped as
    [DataSafeHavenAzureError]: a missing blob ([None]) raises it. *)
Definition download_blob (blob : option yaml_text) : result yaml_text :=
  match blob with Some t => Ok t | None => Err DataSafeHavenAzureError end.

(** Modelled from the spec: the field validators of functions/ (outside
    src/), by the shapes the spec names. A GUID is 8-4-4-4-12 hexadecimal
    digits; a region code, a VM SKU and an IANA time zone name are
    non-empty words of letters, digits and [_/-]; an e-mail address has
    text on both sides of an [@]; an IP address or CIDR block is digits,
    dots and at most a [/]. *)
Section Shapes.
Local Open Scope nat_scope.

Definition is_hex (c : Ascii.ascii) : bool :=
  let n := Ascii.nat_of_ascii c in
  ((48 <=? n) && (n <=? 57)) || ((97 <=? n) && (n <=? 102)) || ((65 <=? n) && (n <=? 70)).

Definition is_word_char (c : Ascii.ascii) : bool :=
  let n := Ascii.nat_of_ascii c in
  ((48 <=? n) && (n <=? 57)) || ((97 <=? n) && (n <=? 122)) || ((65 <=? n) && (n <=? 90))
  || (n =? 95) || (n =? 47) || (n =? 45).

Definition guid_shape (s : string) : bool :=
  let cs := list_ascii_of_string s in
  (length cs =? 36) &&
  forallb (fun ic : nat * Ascii.ascii =>
             let '(i, c) := ic in
             if (i =? 8) || (i =? 13) || (i =? 18) || (i =? 23)
             then Ascii.eqb c (Ascii.ascii_of_nat 45) else is_hex c)
          (zip (seq 0 (length cs)) cs).

Definition word_shape (s : string) : bool :=
  negb (String.eqb s "") && forallb is_word_char (list_ascii_of_string s).

Definition email_shape (s : string) : bool :=
  match String.index 0 "@" s with
  | Some i => (0 <? i) && (S i <? String.length s)
  | None => false
  end.

Definition ip_shape (s : string) : bool :=
  negb (String.eqb s "") &&
  forallb (fun c => let n := Ascii.nat_of_ascii c in
                    ((48 <=? n) && (n <=? 57)) || (n =? 46) || (n =? 47))
          (list_ascii_of_string s).

End Shapes.

Definition spec_validators : validators :=
  {| validate_aad_guid := guid_shape;
     validate_azure_location := word_shape;
     validate_email_address := email_shape;
     validate_ip_address := ip_shape;
     validate_timezone := word_shape;
     validate_azure_vm_sku := word_shape |}.

(* ------------------------------------------------------------------ *)
(** ** Concrete inputs *)

Definition acme_settings : BackendSettings :=
  {| settings_name := "Acme Deployment"; settings_subscription_name := "Data Safe Haven";
     settings_location := "uksouth";
     settings_admin_group_id := "d5c5c439-1115-4cb6-ab50-b8e547b6c8dd" |}.

Definition acme_guid : string := "d5c5c439-1115-4cb6-ab50-b8e547b6c8dd".

(** A remote document whose only SRE carries the index [-5]. *)
Definition negative_index_yaml : yaml_text :=
  YamlDoc (PDict [("sre", PDict [("sandbox", PDict [("index", PInt (-5))])])]).

(** An SRE section whose two workspaces run different SKUs. *)
Definition two_desktops_sre : ConfigSectionSRE :=
  {| data_provider_ip_addresses := PList []; index := PInt 1;
     remote_desktop := {| allow_copy := PBool false; allow_paste := PBool false |};
     research_desktops :=
       <["workspace-01" := {| sku := "Standard_D2s_v3" |}]>
         (<["workspace-00" := {| sku := "Standard_B2ms" |}]> ∅);
     research_user_ip_addresses := PList [];
     software_packages := NONE |}.

(** The document [Config()] builds for [acme_settings] before it reads
    the blob. *)
Definition acme_config : Config :=
  {| azure_ := Some {| admin_group_id := PStr acme_guid; location := PStr "uksouth";
                       subscription_id := PTypeChecked; tenant_id := PTypeChecked |};
     backend_ := None; pulumi_ := None; shm_ := None; tags_ := None; sres := ∅;
     name := "Acme Deployment"; shm_name_ := "acmedeployment";
     backend_resource_group_name := "shm-acmedeployment-rg-backend";
     backend_storage_account_name := "shmacmedeploymentbackend";
     backend_storage_container_name := "config" |}.

(* ------------------------------------------------------------------ *)
(** ** Specification vocabulary *)

(** What a read of a field returns when it has no well-typed value: the
    configured default, or the descriptor itself as the unset sentinel. *)
Definition unset_read (d : descriptor) : pyval :=
  match default d with Some dv => dv | None => PTypeChecked end.

(** [int(sre.index)] as a total function. *)
Definition index_value (s : ConfigSectionSRE) : Z :=
  match index s with
  | PInt z => z
  | PBool b => if b then 1%Z else 0%Z
  | _ => 0%Z
  end.

Definition idx_list (m : gmap string ConfigSectionSRE) : list Z :=
  map index_value (map snd (map_to_list m)).

(** [ConfigSectionSRE()]. *)
Definition sre_defaults : ConfigSectionSRE :=
  {| data_provider_ip_addresses := PList []; index := PInt 0;
     remote_desktop := {| allow_copy := PTypeChecked; allow_paste := PTypeChecked |};
     research_desktops := ∅; research_user_ip_addresses := PList [];
     software_packages := NONE |}.

(** [ConfigSectionPulumi()]. *)
Definition pulumi_defaults : ConfigSectionPulumi :=
  {| encryption_key_id := PTypeChecked; encryption_key_name := PStr "pulumi-encryption-key";
     stacks := ∅; pulumi_storage_container_name := PStr "pulumi" |}.

(** The stacks a document records ([{}] while it has no pulumi section). *)
Definition stacks_of (c : Config) : gmap string string :=
  match pulumi_ c with Some p => stacks p | None => ∅ end.

(** *** What a round trip needs

    Set-ness: every [TypeChecked] field of a section holds a value of its
    type, and an IP-address field holds a list of strings. *)
Definition str_list (v : pyval) : bool :=
  match v with
  | PList l => forallb (fun x => match x with PStr _ => true | _ => false end) l
  | _ => false
  end.

Definition azure_set (a : ConfigSectionAzure) : bool :=
  isinstance (admin_group_id a) TStr && isinstance (location a) TStr &&
  isinstance (subscription_id a) TStr && isinstance (tenant_id a) TStr.

Definition backend_set (b : ConfigSectionBackend) : bool :=
  isinstance (key_vault_name b) TStr && isinstance (managed_identity_name b) TStr &&
  isinstance (resource_group_name b) TStr && isinstance (storage_account_name b) TStr &&
  isinstance (storage_container_name b) TStr.

Definition shm_set (s : ConfigSectionSHM) : bool :=
  isinstance (aad_tenant_id s) TStr && isinstance (admin_email_address s) TStr &&
  str_list (admin_ip_addresses s) && isinstance (fqdn s) TStr &&
  isinstance (shm_name s) TStr && isinstance (timezone s) TStr.

Definition sre_set (s : ConfigSectionSRE) : bool :=
  str_list (data_provider_ip_addresses s) && isinstance (index s) TInt &&
  isinstance (allow_copy (remote_desktop s)) TBool &&
  isinstance (allow_paste (remote_desktop s)) TBool &&
  str_list (research_user_ip_addresses s).

Definition pulumi_set (p : ConfigSectionPulumi) : bool :=
  isinstance (encryption_key_id p) TStr && isinstance (encryption_key_name p) TStr &&
  isinstance (pulumi_storage_container_name p) TStr.


(** The call returns rather than raises. *)
Definition is_ok {A} (r : result A) : bool := match r with Ok _ => true | Err _ => false end.

Definition opt_ok {A} (f : A -> bool) (o : option A) : bool :=
  match o with Some x => f x | None => true end.

(** A document [__str__] serializes without raising and into plain YAML:
    an azure section (every document [Config()] builds has one), every
    present section set and passing its [validate], and the tags section
    the [tags] property yields passing its own. *)
Definition roundtrip_ready (V : validators) (c : Config) : bool :=
  match azure_ c with Some a => azure_set a && is_ok (validate_azure V a) | None => false end &&
  opt_ok (fun b => backend_set b && is_ok (validate_backend b)) (backend_ c) &&
  opt_ok (fun p => pulumi_set p && is_ok (validate_pulumi p)) (pulumi_ c) &&
  opt_ok (fun s => shm_set s && is_ok (validate_shm V s)) (shm_ c) &&
  forallb (fun kv => sre_set kv.2 && is_ok (validate_sre V kv.2)) (map_to_list (sres c)) &&
  is_ok (validate_tags (snd (tags c))).

(** The Acme document with a complete azure section and customised tags. *)
Definition acme_tagged_config : Config :=
  {| azure_ := Some {| admin_group_id := PStr acme_guid; location := PStr "uksouth";
                       subscription_id := PStr acme_guid; tenant_id := PStr acme_guid |};
     backend_ := None; pulumi_ := None; shm_ := None;
     tags_ := Some {| deployment := "Acme Deployment"; deployed_by := "Operations";
                      project := "Acme Research"; version := __version__ |};
     sres := ∅;
     name := "Acme Deployment"; shm_name_ := "acmedeployment";
     backend_resource_group_name := "shm-acmedeployment-rg-backend";
     backend_storage_account_name := "shmacmedeploymentbackend";
     backend_storage_container_name := "config" |}.

(** The Acme document with every section present and set, one stack and
    one SRE, and no tags section yet. *)
Definition acme_full_config : Config :=
  {| azure_ := Some {| admin_group_id := PStr acme_guid; location := PStr "uksouth";
                       subscription_id := PStr acme_guid; tenant_id := PStr acme_guid |};
     backend_ := Some {| key_vault_name := PStr "shm-acmedeplo-kv-backend";
                         managed_identity_name := PStr "shm-acmedeployment-identity-reader-backend";
                         resource_group_name := PStr "shm-acmedeployment-rg-backend";
                         storage_account_name := PStr "shmacmedeploymentbackend";
                         storage_container_name := PStr "config" |};
     pulumi_ := Some {| encryption_key_id := PStr "a1b2c3"; encryption_key_name := PStr "pulumi-encryption-key";
                        stacks := {["shm" := "c3RhY2s="]};
                        pulumi_storage_container_name := PStr "pulumi" |};
     shm_ := Some {| aad_tenant_id := PStr acme_guid; admin_email_address := PStr "admin@acme.org";
                     admin_ip_addresses := PList [PStr "10.0.0.1"]; fqdn := PStr "acme.org";
                     shm_name := PStr "acmedeployment"; timezone := PStr "Europe/London" |};
     tags_ := None;
     sres := {["sandbox" := two_desktops_sre]};
     name := "Acme Deployment"; shm_name_ := "acmedeployment";
     backend_resource_group_name := "shm-acmedeployment-rg-backend";
     backend_storage_account_name := "shmacmedeploymentbackend";
     backend_storage_container_name := "config" |}.

(* ------------------------------------------------------------------ *)
(** ** Further vocabulary *)

(** The top-level keys [Config.__init__] looks up. *)
Definition section_keys : list string := ["azure"; "backend"; "pulumi"; "shm"; "sre"].

(** *** [read_stack] and [write_stack]

    [b64encode] and [b64decode] (functions/, outside src/) are left as
    parameters. [read_stack] is given the text it reads from [path];
    [write_stack] returns the text it writes to [path]. *)

Definition with_stacks (p : ConfigSectionPulumi) (m : gmap string string) : ConfigSectionPulumi :=
  {| encryption_key_id := encryption_key_id p; encryption_key_name := encryption_key_name p;
     stacks := m; pulumi_storage_container_name := pulumi_storage_container_name p |}.

Section Stacks.
Variables b64encode b64decode : string -> string.

(** [self.pulumi.stacks[name] = b64encode(pulumi_cfg)]: the property
    creates the pulumi section if it is missing, then the stacks dict of
    that section is updated in place. *)
Definition read_stack (nm : string) (pulumi_cfg : string) (c : Config) : result Config :=
  '(c1, p) <- pulumi c ;;
  Ok (set_pulumi_ c1 (Some (with_stacks p (<[nm := b64encode pulumi_cfg]> (stacks p))))).

(** [pulumi_cfg = b64decode(self.pulumi.stacks[name])]: a missing name
    raises [KeyError]. *)
Definition write_stack (nm : string) (c : Config) : result (Config * string) :=
  '(c1, p) <- pulumi c ;;
  match stacks p !! nm with
  | Some s => Ok (c1, b64decode s)
  | None => Err KeyError
  end.

End Stacks.


(* ================================================================== *)
(** * Theorems *)

(** ** Generic lemmas *)

Lemma mapM_total {A B} (f : A -> result B) (g : A -> B) (l : list A) :
  (forall x, f x = Ok (g x)) -> mapM f l = Ok (map g l).
Proof. intros Hf. induction l as [|x l IH]; simpl; [done|]. by rewrite Hf, IH. Qed.

Lemma py_max0_ge (l : list Z) : (0 <= py_max0 l)%Z /\ Forall (fun x => x <= py_max0 l)%Z l.
Proof.
  induction l as [|x l [H0 IH]]; simpl; [split; [lia|constructor]|].
  split; [lia|]. constructor; [lia|].
  eapply Forall_impl; [exact IH|]. simpl; lia.
Qed.

Lemma py_max0_perm (l l' : list Z) : l ≡ₚ l' -> py_max0 l = py_max0 l'.
Proof. induction 1; simpl; lia. Qed.

(** ** [TypeChecked.__get__] *)

Lemma get_try_caught (d : descriptor) (inst : instance) (e : exn) :
  get_try d inst = Err e -> caught e = true.
Proof.
  unfold get_try, check_type, get_name.
  destruct inst as [m|]; simpl; [|by intros [= <-]].
  destruct (dname d) as [n|]; simpl; [|by intros [= <-]].
  destruct (m !! n) as [v|]; simpl; [|by intros [= <-]].
  destruct (isinstance v (wrapped d)); simpl; by intros [= <-].
Qed.

Lemma get_total (d : descriptor) (inst : instance) : exists v, __get__ d inst = Ok v.
Proof.
  unfold __get__. destruct (get_try d inst) as [v|e] eqn:E; [eauto|].
  rewrite (get_try_caught _ _ _ E). destruct (default d); eauto.
Qed.

Lemma get_stored (d : descriptor) (m : gmap string pyval) (n : string) (v : pyval) :
  dname d = Some n -> m !! n = Some v -> isinstance v (wrapped d) = true ->
  __get__ d (Some m) = Ok v.
Proof.
  intros Hn Hv Ht. unfold __get__, get_try, get_name, check_type.
  rewrite Hn; simpl. rewrite Hv; simpl. by rewrite Ht.
Qed.

Lemma get_ill_typed (d : descriptor) (m : gmap string pyval) (n : string) (v : pyval) :
  dname d = Some n -> m !! n = Some v -> isinstance v (wrapped d) = false ->
  (exists msg, get_try d (Some m) = Err (DataSafeHavenParameterError msg)) /\
  __get__ d (Some m) = Ok (unset_read d).
Proof.
  intros Hn Hv Ht.
  assert (Hg : exists msg, get_try d (Some m) = Err (DataSafeHavenParameterError msg)).
  { unfold get_try, check_type, get_name. rewrite Hn; simpl. rewrite Hv; simpl.
    rewrite Ht; simpl. eexists; reflexivity. }
  split; [done|]. destruct Hg as [msg Hg].
  unfold __get__. rewrite Hg. simpl. unfold unset_read. by destruct (default d).
Qed.

(** C8: a read of a [TypeChecked] field returns the stored value when it
    has the expected type; when the field was never set it returns the
    default configured for the field, or else the unset sentinel (the
    descriptor object, which no value of the expected type equals); a read
    never raises. *)
Theorem TypeChecked_get_spec (d : descriptor) (m : gmap string pyval) :
  (forall n v, dname d = Some n -> m !! n = Some v -> isinstance v (wrapped d) = true ->
               __get__ d (Some m) = Ok v) /\
  (forall n, dname d = Some n -> m !! n = None -> __get__ d (Some m) = Ok (unset_read d)) /\
  (__get__ d None = Ok (unset_read d)) /\
  isinstance PTypeChecked (wrapped d) = false /\
  (forall inst, exists v, __get__ d inst = Ok v).
Proof.
  split; [intros n v; apply get_stored|].
  split.
  { intros n Hn Hm. unfold __get__, get_try, get_name. rewrite Hn; simpl. rewrite Hm; simpl.
    unfold unset_read. by destruct (default d). }
  split; [unfold __get__, unset_read; simpl; by destruct (default d)|].
  split; [by destruct (wrapped d)|]. apply get_total.
Qed.

(** C10: when the stored value fails the type check (a [TypeChecked]
    object, the representation of an unset field, included), the type
    check raises a parameter error, [__get__] catches it and returns the
    default or the sentinel: the read never raises. *)
Theorem TypeChecked_get_masks_ill_typed (d : descriptor) (m : gmap string pyval)
    (n : string) (v : pyval) :
  dname d = Some n -> m !! n = Some v -> isinstance v (wrapped d) = false ->
  (exists msg, get_try d (Some m) = Err (DataSafeHavenParameterError msg)) /\
  __get__ d (Some m) = Ok (unset_read d).
Proof. apply get_ill_typed. Qed.

Lemma TypeChecked_get_masks_ill_typed_witness :
  dname d_index = Some "index" /\
  ({["index" := PStr "seven"]} : gmap string pyval) !! "index" = Some (PStr "seven") /\
  isinstance (PStr "seven") (wrapped d_index) = false /\
  ((exists msg, get_try d_index (Some {["index" := PStr "seven"]})
                  = Err (DataSafeHavenParameterError msg)) /\
   __get__ d_index (Some {["index" := PStr "seven"]}) = Ok (unset_read d_index)).
Proof.
  split; [reflexivity|]. split; [apply lookup_singleton_eq|]. split; [reflexivity|].
  apply (TypeChecked_get_masks_ill_typed d_index {["index" := PStr "seven"]} "index" (PStr "seven"));
    [reflexivity | apply lookup_singleton_eq | reflexivity].
Defined.

(** ** SRE indices *)

Lemma sre_index_int_total (s : ConfigSectionSRE) : sre_index_int s = Ok (index_value s).
Proof.
  unfold sre_index_int, read, __get__, get_try, check_type, get_name, d_index, tc; simpl.
  rewrite lookup_singleton_eq; simpl.
  unfold index_value. by destruct (index s).
Qed.

Lemma sre_indices_total (c : Config) : sre_indices c = Ok (idx_list (sres c)).
Proof.
  unfold sre_indices, idx_list. rewrite (mapM_total _ index_value); [done|].
  apply sre_index_int_total.
Qed.

Lemma ConfigSectionSRE_new_defaults :
  ConfigSectionSRE_new None None None None None None = Ok sre_defaults.
Proof. reflexivity. Qed.

Lemma sre_new (c : Config) (nm : string) :
  sres c !! nm = None ->
  sre nm c = Ok (set_sres c (<[nm := with_index sre_defaults (PInt (py_max0 (idx_list (sres c)) + 1))]>
                              (sres c)),
                 with_index sre_defaults (PInt (py_max0 (idx_list (sres c)) + 1))).
Proof.
  intros Hn. unfold sre. rewrite Hn, sre_indices_total. simpl. reflexivity.
Qed.

Lemma sre_existing (c : Config) (nm : string) (s : ConfigSectionSRE) :
  sres c !! nm = Some s -> sre nm c = Ok (c, s).
Proof. intros Hs. unfold sre. by rewrite Hs. Qed.

Lemma idx_list_insert (m : gmap string ConfigSectionSRE) (nm : string) (s : ConfigSectionSRE) :
  m !! nm = None -> idx_list (<[nm := s]> m) ≡ₚ index_value s :: idx_list m.
Proof.
  intros Hn. unfold idx_list. rewrite (map_to_list_insert m nm s Hn). reflexivity.
Qed.

Lemma py_max0_insert_new (m : gmap string ConfigSectionSRE) (nm : string) (k : Z) :
  m !! nm = None -> k = (py_max0 (idx_list m) + 1)%Z ->
  py_max0 (idx_list (<[nm := with_index sre_defaults (PInt k)]> m)) = k.
Proof.
  intros Hn Hk. rewrite (py_max0_perm _ _ (idx_list_insert m nm _ Hn)). simpl.
  unfold index_value; simpl.
  pose proof (proj1 (py_max0_ge (idx_list m))). lia.
Qed.

Lemma idx_list_lookup (m : gmap string ConfigSectionSRE) (nm : string) (s : ConfigSectionSRE) :
  m !! nm = Some s -> In (index_value s) (idx_list m).
Proof.
  intros Hs. unfold idx_list. rewrite map_map. apply in_map_iff.
  exists (nm, s). split; [done|]. apply list_elem_of_In. by apply elem_of_map_to_list.
Qed.

(** C1 (amended): for a name with no SRE section, [sre(name)] creates it
    with index [max([0] + existing indices) + 1], i.e. one more than the
    largest existing index, or 1 when no existing index is positive; a
    second call with the same name returns the same section; a second new
    name then gets a strictly larger index, and both new indices exceed
    every existing one. *)
Theorem sre_get_or_create_index (c : Config) (nm nm2 : string) :
  sres c !! nm = None -> sres c !! nm2 = None -> nm <> nm2 ->
  exists existing c1 s1 c2 s2 i1 i2,
    sre_indices c = Ok existing /\
    sre nm c = Ok (c1, s1) /\
    index s1 = PInt i1 /\ i1 = (py_max0 existing + 1)%Z /\
    sres c1 !! nm = Some s1 /\
    sre nm c1 = Ok (c1, s1) /\
    sre nm2 c1 = Ok (c2, s2) /\
    index s2 = PInt i2 /\
    (i1 < i2)%Z /\
    Forall (fun i => i < i1)%Z existing /\
    Forall (fun i => i < i2)%Z existing.
Proof.
  intros H1 H2 Hne.
  set (i1 := (py_max0 (idx_list (sres c)) + 1)%Z).
  set (s1 := with_index sre_defaults (PInt i1)).
  set (c1 := set_sres c (<[nm := s1]> (sres c))).
  assert (Hc1 : sres c1 !! nm2 = None) by (simpl; by rewrite lookup_insert_ne).
  set (i2 := (py_max0 (idx_list (sres c1)) + 1)%Z).
  assert (Hi2 : i2 = (i1 + 1)%Z).
  { unfold i2, c1, s1. simpl. rewrite (py_max0_insert_new (sres c) nm i1); done. }
  exists (idx_list (sres c)), c1, s1,
    (set_sres c1 (<[nm2 := with_index sre_defaults (PInt i2)]> (sres c1))),
    (with_index sre_defaults (PInt i2)), i1, i2.
  pose proof (proj2 (py_max0_ge (idx_list (sres c)))) as Hall.
  split; [apply sre_indices_total|].
  split; [by apply sre_new|].
  split; [done|]. split; [done|].
  split; [simpl; apply lookup_insert_eq|].
  split; [apply sre_existing; simpl; apply lookup_insert_eq|].
  split; [by apply sre_new|].
  split; [done|]. split; [lia|].
  split; (eapply Forall_impl; [exact Hall|]); simpl; lia.
Qed.

Lemma sre_get_or_create_index_witness :
  exists existing c1 s1 c2 s2 i1 i2,
    sre_indices acme_config = Ok existing /\
    sre "sandbox" acme_config = Ok (c1, s1) /\
    index s1 = PInt i1 /\ i1 = (py_max0 existing + 1)%Z /\
    sres c1 !! "sandbox" = Some s1 /\
    sre "sandbox" c1 = Ok (c1, s1) /\
    sre "production" c1 = Ok (c2, s2) /\
    index s2 = PInt i2 /\
    (i1 < i2)%Z /\
    Forall (fun i => i < i1)%Z existing /\
    Forall (fun i => i < i2)%Z existing.
Proof.
  apply (sre_get_or_create_index acme_config "sandbox" "production");
    [reflexivity | reflexivity | discriminate].
Defined.

(** C1 fails as stated: the code takes the maximum with [0]. A remote
    document whose only SRE has index -5 decodes to a document on which
    [sre] of a new name assigns 1, not -5 + 1. *)
Lemma sre_index_floor_counterexample :
  exists c c1 s1,
    config_init acme_settings (Ok negative_index_yaml) = Ok c /\
    sre_indices c = Ok [(-5)%Z] /\
    sre "production" c = Ok (c1, s1) /\
    index s1 = PInt 1 /\ index s1 <> PInt (-5 + 1).
Proof. vm_compute. do 3 eexists. split; [reflexivity|]. split; [reflexivity|].
  split; [reflexivity|]. split; [reflexivity|]. discriminate. Qed.

(** C2 (amended): the index a new SRE receives is larger than the index
    of every SRE present in the document, so it never collides with one;
    it is computed from the SREs present only, so the index of a removed
    SRE can be handed out again. *)
Theorem sre_new_index_exceeds_present (c : Config) (nm : string) :
  sres c !! nm = None ->
  exists c1 s1 k, sre nm c = Ok (c1, s1) /\ index s1 = PInt k /\
    forall nm' s' z, sres c !! nm' = Some s' -> sre_index_int s' = Ok z -> (z < k)%Z.
Proof.
  intros Hn. eexists _, _, _. split; [by apply sre_new|]. split; [reflexivity|].
  intros nm' s' z Hs Hz. rewrite sre_index_int_total in Hz. injection Hz as <-.
  pose proof (proj2 (py_max0_ge (idx_list (sres c)))) as Hall.
  rewrite Forall_forall in Hall.
  specialize (Hall _ (proj2 (list_elem_of_In _ _) (idx_list_lookup _ _ _ Hs))). lia.
Qed.

Lemma sre_new_index_exceeds_present_witness :
  exists c c1 s1 k,
    config_init acme_settings (Ok negative_index_yaml) = Ok c /\
    sre "production" c = Ok (c1, s1) /\ index s1 = PInt k /\
    forall nm' s' z, sres c !! nm' = Some s' -> sre_index_int s' = Ok z -> (z < k)%Z.
Proof.
  destruct (config_init acme_settings (Ok negative_index_yaml)) as [c|e] eqn:E;
    [|vm_compute in E; discriminate].
  assert (Hn : sres c !! "production" = None).
  { vm_compute in E. injection E as <-. reflexivity. }
  destruct (sre_new_index_exceeds_present c "production" Hn) as (c1 & s1 & k & H).
  exists c, c1, s1, k. split; [reflexivity|]. exact H.
Defined.

(** C2 fails as stated: an SRE created, removed, and followed by a new
    one hands the new SRE the removed SRE's index. *)
Lemma sre_index_reuse_counterexample :
  exists c1 s1 c2 s2,
    sre "sandbox" acme_config = Ok (c1, s1) /\
    sre "production" (remove_sre "sandbox" c1) = Ok (c2, s2) /\
    index s1 = PInt 1 /\ index s2 = PInt 1.
Proof. vm_compute. do 4 eexists. repeat split; reflexivity. Qed.

(** ** [remove_stack] *)

Lemma ConfigSectionPulumi_new_defaults :
  ConfigSectionPulumi_new None None None None = Ok pulumi_defaults.
Proof. reflexivity. Qed.

(** C9: [remove_stack(name)] never raises and removes no stack but
    [name]; on a document without a pulumi section it creates that
    section with its defaults (and changes nothing else), whatever
    [name] is. *)
Theorem remove_stack_materialises_pulumi (c : Config) (nm : string) :
  exists c',
    remove_stack nm c = Ok c' /\
    (pulumi_ c = None -> c' = set_pulumi_ c (Some pulumi_defaults)) /\
    pulumi_ c' <> None /\
    (forall k, k <> nm -> stacks_of c' !! k = stacks_of c !! k) /\
    stacks_of c' !! nm = None /\
    set_pulumi_ c' (pulumi_ c) = c.
Proof.
  unfold remove_stack, pulumi.
  destruct (pulumi_ c) as [p|] eqn:Ep.
  - simpl. destruct (stacks p !! nm) as [x|] eqn:Ex.
    + eexists. split; [reflexivity|].
      split; [discriminate|]. split; [simpl; discriminate|].
      unfold stacks_of; simpl. rewrite Ep.
      split; [intros k Hk; by rewrite lookup_delete_ne|].
      split; [apply lookup_delete_eq|].
      rewrite <- Ep. by destruct c.
    + eexists. split; [reflexivity|].
      split; [discriminate|]. split; [by rewrite Ep|].
      unfold stacks_of. rewrite Ep.
      split; [done|]. split; [done|]. by rewrite <- Ep; destruct c.
  - rewrite ConfigSectionPulumi_new_defaults. simpl.
    eexists. split; [reflexivity|].
    split; [done|]. split; [discriminate|].
    unfold stacks_of; simpl. rewrite Ep.
    split; [done|]. split; [done|]. rewrite <- Ep. by destruct c.
Qed.

(** ** [set_research_desktops] *)

(** C6: calling [set_research_desktops] twice with the same list leaves
    the section exactly as the first call left it. *)
Theorem set_research_desktops_idempotent (skus : list string) (s : ConfigSectionSRE) :
  set_research_desktops skus (set_research_desktops skus s) = set_research_desktops skus s.
Proof.
  unfold set_research_desktops.
  destruct (bool_decide (py_sorted skus = py_sorted (map fst (map_to_list (research_desktops s)))))
    eqn:E; simpl.
  - by rewrite E.
  - destruct (bool_decide (py_sorted skus =
               py_sorted (map fst (map_to_list (fill_research_desktops 0 skus ∅)))));
      reflexivity.
Qed.

(** C5 (code): [set_research_desktops] compares the requested SKUs with
    the sorted keys of [research_desktops] (["workspace-00"; ...]), not
    with the stored SKUs. On a section holding exactly the requested
    SKUs, in the other order, it replaces the collection and swaps the
    SKUs of [workspace-00] and [workspace-01]. *)
Theorem set_research_desktops_compares_keys :
  py_sorted (map (fun kv => sku kv.2) (map_to_list (research_desktops two_desktops_sre)))
    = py_sorted ["Standard_D2s_v3"; "Standard_B2ms"] /\
  research_desktops two_desktops_sre !! "workspace-00" = Some {| sku := "Standard_B2ms" |} /\
  research_desktops (set_research_desktops ["Standard_D2s_v3"; "Standard_B2ms"] two_desktops_sre)
    !! "workspace-00" = Some {| sku := "Standard_D2s_v3" |} /\
  research_desktops (set_research_desktops ["Standard_D2s_v3"; "Standard_B2ms"] two_desktops_sre)
    <> research_desktops two_desktops_sre.
Proof.
  split; [vm_compute; reflexivity|].
  split; [vm_compute; reflexivity|].
  split; [vm_compute; reflexivity|].
  intros H. assert (H0 := f_equal (fun m => m !! "workspace-00") H).
  vm_compute in H0. discriminate.
Qed.

(** ** [to_dict] *)

(** C7 (code): [ConfigSectionBackend.validate] tests [not self.x], and an
    unset field reads as the [TypeChecked] object, which is true: a
    backend section decoded from an empty mapping, every field unset,
    passes [to_dict] and is flattened with the sentinel objects as
    values. The SHM section's [isinstance(..., str)] guard rejects the
    same value. *)
Theorem backend_to_dict_accepts_unset :
  exists b,
    decode_backend (PDict []) = Ok b /\
    key_vault_name b = PTypeChecked /\
    backend_to_dict b =
      Ok (PDict [("key_vault_name", PTypeChecked); ("managed_identity_name", PTypeChecked);
                 ("resource_group_name", PTypeChecked); ("storage_account_name", PTypeChecked);
                 ("storage_container_name", PTypeChecked)]) /\
    str_guard d_fqdn "fqdn" PTypeChecked = Err (invalid "fqdn" PTypeChecked).
Proof. eexists. split; [reflexivity|]. repeat split; reflexivity. Qed.

(** ** Loading from the blob *)

(** C4 fails as stated: a blob that is found but on which [yaml.safe_load]
    raises a [ParserError] is treated like an absent one: [Config()]
    raises nothing, and its azure section is present anyway. *)
Lemma load_parser_error_counterexample :
  exists c,
    config_init acme_settings (download_blob (Some (YamlMalformed ParserError))) = Ok c /\
    config_init acme_settings (download_blob None) = Ok c /\
    azure_ c <> None.
Proof. exists acme_config. split; [reflexivity|]. split; [reflexivity|]. discriminate. Qed.

(** C4 (amended): a missing blob (any [DataSafeHavenAzureError]) and a
    found blob on which [yaml.safe_load] raises [ParserError] give the
    same document, without raising: no backend, pulumi, shm or tags
    section, no SRE, and an azure section holding only the location and
    admin group from the backend settings. Any other error from the
    download or the YAML loader (a scanner error, for instance) is
    raised. *)
Theorem load_absent_or_parser_error (st : BackendSettings) :
  config_init st (download_blob (Some (YamlMalformed ParserError))) = config_base st /\
  config_init st (download_blob None) = config_base st /\
  (exists c, config_base st = Ok c /\
     azure_ c = Some {| admin_group_id := PStr (settings_admin_group_id st);
                        location := PStr (settings_location st);
                        subscription_id := PTypeChecked; tenant_id := PTypeChecked |} /\
     backend_ c = None /\ pulumi_ c = None /\ shm_ c = None /\ tags_ c = None /\
     sres c = ∅) /\
  (forall e, e <> DataSafeHavenAzureError -> e <> ParserError ->
     config_init st (Ok (YamlMalformed e)) = Err e /\ config_init st (Err e) = Err e).
Proof.
  assert (Hb : exists c, config_base st = Ok c /\
     azure_ c = Some {| admin_group_id := PStr (settings_admin_group_id st);
                        location := PStr (settings_location st);
                        subscription_id := PTypeChecked; tenant_id := PTypeChecked |} /\
     backend_ c = None /\ pulumi_ c = None /\ shm_ c = None /\ tags_ c = None /\
     sres c = ∅) by (eexists; split; [reflexivity|]; repeat split).
  destruct Hb as (c & Hc & Hrest).
  split; [unfold config_init; rewrite Hc; reflexivity|].
  split; [unfold config_init; rewrite Hc; reflexivity|].
  split; [eauto|].
  intros e H1 H2. unfold config_init. rewrite Hc. simpl.
  destruct e; try congruence; split; reflexivity.
Qed.

(** ** C3: the YAML round trip *)

Lemma read_typed (d : descriptor) (n : string) (v : pyval) :
  dname d = Some n -> isinstance v (wrapped d) = true -> read d v = Ok v.
Proof.
  intros Hn Ht. unfold read. rewrite Hn. apply (get_stored d _ n); [done|apply lookup_singleton_eq|done].
Qed.

Lemma write_typed (d : descriptor) (v : pyval) :
  isinstance v (wrapped d) = true -> write d v = Ok v.
Proof. intros Ht. unfold write, check_type. destruct v; rewrite ?Ht; done. Qed.

Lemma azure_roundtrip (V : validators) (a : ConfigSectionAzure) :
  azure_set a = true -> validate_azure V a = Ok tt ->
  exists e, azure_to_dict V a = Ok e /\ plain e = true /\ decode_azure e = Ok a.
Proof.
  intros Hs Hv. unfold azure_to_dict. rewrite Hv. cbn [bind].
  destruct a as [[] [] [] []]; try discriminate Hs.
  vm_compute. eexists; split; [reflexivity|]. split; reflexivity.
Qed.

Lemma mapM_map_ok {A B} (f : B -> result A) (h : A -> B) (l : list A) :
  (forall x, f (h x) = Ok x) -> mapM f (map h l) = Ok l.
Proof. intros Hf. induction l as [|x l IH]; simpl; [done|]. by rewrite Hf, IH. Qed.

Lemma fold_insert_union {A} (l : list (string * A)) (m : gmap string A) :
  NoDup l.*1 ->
  fold_left (fun m kv => <[kv.1 := kv.2]> m) l m = list_to_map l ∪ m.
Proof.
  revert m. induction l as [|[k v] l IH]; intros m Hnd; simpl.
  - by rewrite map_empty_union.
  - apply NoDup_cons in Hnd as [Hk Hnd]. rewrite IH by done.
    rewrite <- insert_union_r by (apply not_elem_of_list_to_map_1; done).
    by rewrite insert_union_l.
Qed.

Lemma dict_of_list_map_to_list {A} (m : gmap string A) : dict_of_list (map_to_list m) = m.
Proof.
  unfold dict_of_list. rewrite fold_insert_union by apply NoDup_fst_map_to_list.
  by rewrite map_union_empty, list_to_map_to_list.
Qed.

Lemma decode_str_dict_encode (m : gmap string string) :
  decode_str_dict (encode_str_dict m) = Ok m.
Proof.
  unfold decode_str_dict, encode_str_dict. cbn [as_mapping bind].
  rewrite (mapM_map_ok _ (fun kv : string * string => (kv.1, PStr kv.2))) by (intros [k v]; done).
  cbn [bind]. by rewrite dict_of_list_map_to_list.
Qed.

Lemma plain_encode_str_dict (m : gmap string string) : plain (encode_str_dict m) = true.
Proof.
  unfold encode_str_dict; simpl. apply forallb_forall. intros [k v] Hin.
  apply in_map_iff in Hin as [[k' v'] [[= <- <-] _]]. done.
Qed.

Ltac read_fields :=
  repeat match goal with
         | |- context [read ?d ?v] => rewrite (read_typed d _ v eq_refl eq_refl)
         end.

(** Turns a set-ness hypothesis on a record of variables into the
    constructors of its fields. *)
Ltac set_fields H :=
  unfold azure_set, backend_set, pulumi_set, shm_set, sre_set in H;
  cbn -[isinstance str_list] in H; rewrite ?andb_true_iff in H; destruct_and? H;
  repeat match goal with
         | Hf : isinstance ?v _ = true |- _ => is_var v; destruct v; try discriminate Hf; clear Hf
         end.

Lemma pulumi_roundtrip (p : ConfigSectionPulumi) :
  pulumi_set p = true -> validate_pulumi p = Ok tt ->
  exists e, pulumi_to_dict p = Ok e /\ plain e = true /\ decode_pulumi e = Ok p.
Proof.
  intros Hs Hv. unfold pulumi_to_dict. rewrite Hv. cbn [bind].
  destruct p as [[] [] m []]; try discriminate Hs.
  unfold encode_pulumi. read_fields. cbn [bind as_dict].
  eexists; split; [reflexivity|]. split.
  - cbn [plain forallb fst snd]. by rewrite plain_encode_str_dict.
  - unfold decode_pulumi. cbn [as_mapping bind assoc]. simpl String.eqb. cbn iota.
    rewrite decode_str_dict_encode. cbn [bind].
    unfold ConfigSectionPulumi_new, field_init. cbn [bind].
    rewrite !write_typed by reflexivity. reflexivity.
Qed.

Lemma str_list_plain (v : pyval) : str_list v = true -> plain v = true.
Proof.
  destruct v as [| | | |l| |]; try discriminate. simpl. intros H.
  apply forallb_forall. intros x Hx. eapply forallb_forall in H; [|exact Hx].
  by destruct x.
Qed.

Lemma backend_roundtrip (b : ConfigSectionBackend) :
  backend_set b = true -> validate_backend b = Ok tt ->
  exists e, backend_to_dict b = Ok e /\ plain e = true /\ decode_backend e = Ok b.
Proof.
  intros Hs Hv. unfold backend_to_dict. rewrite Hv. cbn [bind].
  destruct b; set_fields Hs.
  vm_compute. eexists; split; [reflexivity|]. split; reflexivity.
Qed.

Lemma shm_roundtrip (V : validators) (s : ConfigSectionSHM) :
  shm_set s = true -> validate_shm V s = Ok tt ->
  exists e, shm_to_dict V s = Ok e /\ plain e = true /\ decode_shm e = Ok s.
Proof.
  intros Hs Hv. unfold shm_to_dict. rewrite Hv. cbn [bind].
  destruct s as [f1 f2 ips f4 f5 f6]; set_fields Hs.
  unfold encode_shm. read_fields. cbn [bind as_dict].
  eexists; split; [reflexivity|]. split.
  - simpl. by rewrite (str_list_plain ips).
  - unfold decode_shm. cbn [as_mapping bind assoc]. simpl String.eqb. cbn iota.
    unfold ConfigSectionSHM_new, field_init. cbn [bind].
    rewrite !write_typed by reflexivity. reflexivity.
Qed.

Lemma software_of_value_inv (c : SoftwarePackageCategory) :
  software_of_value (software_value c) = Ok c.
Proof. by destruct c. Qed.

Lemma sre_roundtrip (V : validators) (s : ConfigSectionSRE) :
  sre_set s = true -> validate_sre V s = Ok tt ->
  exists e, sre_to_dict V s = Ok e /\ plain e = true /\ decode_sre e = Ok s.
Proof.
  intros Hs Hv. unfold sre_to_dict. rewrite Hv. cbn [bind].
  destruct s as [dpi i [ac ap] rds rui sp]; set_fields Hs.
  all: unfold encode_sre, encode_remote_desktop; read_fields; cbn [bind as_dict].
  all: eexists; split; [reflexivity|]; split;
    [ simpl; rewrite (str_list_plain dpi), (str_list_plain rui) by done;
      unfold encode_research_desktops; cbn [plain];
      assert (Hr : forallb (fun kv => plain kv.2)
                     (map (fun kv : string * ConfigSubsectionResearchDesktopOpts =>
                             (kv.1, PDict [("sku", PStr (sku kv.2))])) (map_to_list rds)) = true)
        by (apply forallb_forall; intros x Hx; apply in_map_iff in Hx as [? [<- _]]; done);
      rewrite Hr; reflexivity
    | ].
  all: unfold decode_sre; cbn [as_mapping bind assoc]; simpl String.eqb; cbn iota.
  all: unfold decode_remote_desktop, encode_research_desktops; cbn [as_mapping bind assoc];
       simpl String.eqb; cbn iota.
  all: unfold ConfigSubsectionRemoteDesktopOpts_new, field_init; cbn [bind];
       rewrite !write_typed by reflexivity; cbn [bind].
  all: rewrite (mapM_map_ok _ (fun kv : string * ConfigSubsectionResearchDesktopOpts =>
                                 (kv.1, PDict [("sku", PStr (sku kv.2))])))
         by (intros [k [r]]; reflexivity);
       cbn [bind]; rewrite dict_of_list_map_to_list.
  all: cbn [decode_str bind software_packages]; rewrite software_of_value_inv; cbn [bind].
  all: unfold ConfigSectionSRE_new, field_init; cbn [bind];
       rewrite !write_typed by reflexivity; reflexivity.
Qed.

Lemma is_ok_unit (r : result unit) : is_ok r = true -> r = Ok tt.
Proof. by destruct r as [[]|]. Qed.

Lemma sres_list_roundtrip (V : validators) (l : list (string * ConfigSectionSRE))
    (m : gmap string ConfigSectionSRE) :
  forallb (fun kv => sre_set kv.2 && is_ok (validate_sre V kv.2)) l = true ->
  exists l', mapM (fun kv => d <- sre_to_dict V kv.2 ;; Ok (kv.1, d)) l = Ok l' /\
    forallb (fun kv => plain kv.2) l' = true /\
    decode_sres l' m = Ok (fold_left (fun m kv => <[kv.1 := kv.2]> m) l m).
Proof.
  revert m. induction l as [|[k s] l IH]; intros m Hl; simpl.
  - by exists [].
  - simpl in Hl. apply andb_prop in Hl as [Hs Hl]. apply andb_prop in Hs as [Hs Hv].
    apply is_ok_unit in Hv.
    destruct (sre_roundtrip V s Hs Hv) as (e & He & Hp & Hd).
    rewrite He. cbn [bind].
    destruct (IH (<[k := s]> m) Hl) as (l' & Hl' & Hp' & Hd').
    rewrite Hl'. cbn [bind]. exists ((k, e) :: l'). split; [done|]. split.
    + simpl. by rewrite Hp, Hp'.
    + simpl. rewrite Hd. cbn [bind]. exact Hd'.
Qed.

Lemma sres_roundtrip (V : validators) (m : gmap string ConfigSectionSRE) :
  forallb (fun kv => sre_set kv.2 && is_ok (validate_sre V kv.2)) (map_to_list m) = true ->
  exists l, sres_to_dict V m = Ok l /\ forallb (fun kv => plain kv.2) l = true /\
    decode_sres l ∅ = Ok m.
Proof.
  intros H. destruct (sres_list_roundtrip V _ ∅ H) as (l & Hl & Hp & Hd).
  exists l. split; [exact Hl|]. split; [exact Hp|]. rewrite Hd. f_equal.
  apply dict_of_list_map_to_list.
Qed.

Ltac use_eqns :=
  repeat match goal with
         | H : ?f ?e = Ok _ |- context [?f ?e] =>
             rewrite H; cbn -[decode_azure decode_backend decode_pulumi decode_shm decode_sres plain]
         end.

(** C3 (amended): for every document whose azure section is present and
    whose present sections are set and pass validation (the tags section
    included, as the [tags] property yields it), serializing it with
    [__str__] and loading the text with [Config()] succeeds; serializing
    creates the tags section on the document if it was absent; the loaded
    document has the same azure, backend, pulumi and shm sections (an
    absent one stays absent) and the same SRE mapping. The tags section is
    written to the text but never decoded: the loaded document has none,
    and its name comes from the backend settings. *)
Theorem config_roundtrip_sections (V : validators) (st : BackendSettings) (c : Config) :
  roundtrip_ready V c = true ->
  exists c' d, roundtrip V st c = Ok (c', d) /\ c' = fst (tags c) /\
    azure_ d = azure_ c /\ backend_ d = backend_ c /\ pulumi_ d = pulumi_ c /\
    shm_ d = shm_ c /\ sres d = sres c /\ tags_ d = None /\ name d = settings_name st.
Proof.
  intros H. unfold roundtrip_ready in H. rewrite !andb_true_iff in H.
  destruct H as [[[[[Ha Hb] Hp] Hs] Hr] Ht].
  destruct c as [az be pu sh tg sr nm sn rg sa sc]; cbn [azure_ backend_ pulumi_ shm_ sres] in *.
  destruct az as [a|]; [|discriminate Ha].
  apply andb_prop in Ha as [Ha Hav]. apply is_ok_unit in Hav.
  destruct (azure_roundtrip V a Ha Hav) as (ea & Hea & Hpa & Hda).
  apply is_ok_unit in Ht.
  destruct (sres_roundtrip V sr Hr) as (l & Hl & Hpl & Hdl).
  unfold roundtrip, config_str. cbn [azure_ backend_ pulumi_ shm_ sres bind].
  rewrite Hea. cbn [bind].
  destruct be as [b|]; cbn [opt_ok] in Hb;
    [apply andb_prop in Hb as [Hb Hbv]; apply is_ok_unit in Hbv;
     destruct (backend_roundtrip b Hb Hbv) as (eb & Heb & Hpb & Hdb); rewrite Heb|];
  cbn [bind];
  (destruct pu as [p|]; cbn [opt_ok] in Hp;
    [apply andb_prop in Hp as [Hp Hpv]; apply is_ok_unit in Hpv;
     destruct (pulumi_roundtrip p Hp Hpv) as (ep & Hep & Hpp & Hdp); rewrite Hep|]);
  cbn [bind];
  (destruct sh as [s|]; cbn [opt_ok] in Hs;
    [apply andb_prop in Hs as [Hs Hsv]; apply is_ok_unit in Hsv;
     destruct (shm_roundtrip V s Hs Hsv) as (es & Hes & Hps & Hds); rewrite Hes|]);
  cbn [bind];
  (case_bool_decide as Hsr; [|rewrite Hl]); cbn [bind].
  all: destruct tg as [t|]; cbn [tags tags_ snd] in Ht |- *; unfold tags_to_dict; rewrite Ht;
       cbn -[decode_azure decode_backend decode_pulumi decode_shm decode_sres plain].
  all: unfold yaml_dump, encode_tags; cbn [plain forallb fst snd];
       rewrite ?Hpa, ?Hpb, ?Hpp, ?Hps, ?Hpl;
       cbn -[decode_azure decode_backend decode_pulumi decode_shm decode_sres].
  all: use_eqns.
  all: try subst sr.
  all: eexists _, _; split; [reflexivity|]; repeat split.
Qed.

Lemma config_roundtrip_sections_witness :
  roundtrip_ready spec_validators acme_full_config = true /\
  exists c' d, roundtrip spec_validators acme_settings acme_full_config = Ok (c', d) /\
    c' = fst (tags acme_full_config) /\
    azure_ d = azure_ acme_full_config /\ backend_ d = backend_ acme_full_config /\
    pulumi_ d = pulumi_ acme_full_config /\ shm_ d = shm_ acme_full_config /\
    sres d = sres acme_full_config /\ tags_ d = None /\ name d = settings_name acme_settings.
Proof.
  split; [vm_compute; reflexivity|].
  apply config_roundtrip_sections. vm_compute. reflexivity.
Defined.

(** C3 counterexample: a document with customised tags round-trips to a
    document without a tags section, whose [tags] property re-creates the
    defaults ([deployed_by = "Python"], [project = "Data Safe Haven"]), not
    the tags that were written. *)
Lemma tags_dropped_counterexample :
  exists c' d, roundtrip spec_validators acme_settings acme_tagged_config = Ok (c', d) /\
    tags_ acme_tagged_config <> None /\ tags_ d = None /\
    snd (tags d) <> snd (tags acme_tagged_config).
Proof.
  vm_compute. eexists _, _. split; [reflexivity|]. split; [discriminate|].
  split; [reflexivity|]. discriminate.
Qed.

(* ------------------------------------------------------------------ *)
(** ** Further properties of the code *)

(** *** Descriptors, [sre] and derived names *)

Lemma bind_ok {A B} (m : result A) (k : A -> result B) (x : B) :
  bind m k = Ok x -> exists y, m = Ok y /\ k y = Ok x.
Proof. destruct m as [y|e]; simpl; [eauto | discriminate]. Qed.

(** [__set__] of a well-typed value stores it under the descriptor's
    name, leaves the other entries alone, and [__get__] then reads it
    back. *)
Theorem TypeChecked_set_then_get (d : descriptor) (m : gmap string pyval) (n : string)
    (v : pyval) :
  dname d = Some n -> isinstance v (wrapped d) = true ->
  __set__ d m v = Ok (<[n := v]> m) /\ __get__ d (Some (<[n := v]> m)) = Ok v /\
  (forall n', n' <> n -> <[n := v]> m !! n' = m !! n').
Proof.
  intros Hn Ht. split; [|split].
  - assert (v <> PTypeChecked) by (intros ->; destruct (wrapped d); discriminate).
    unfold __set__, check_type, get_name. rewrite Hn.
    destruct v; try congruence; rewrite Ht; reflexivity.
  - apply (get_stored d _ n); [done | apply lookup_insert_eq | done].
  - intros n' Hne. by apply lookup_insert_ne.
Qed.

(** [__set__] raises [DataSafeHavenParameterError] for an ill-typed
    value other than a descriptor. A descriptor object is stored
    without a check, and reading it back gives the default or the
    unset sentinel. *)
Theorem TypeChecked_set_rejects (d : descriptor) (m : gmap string pyval) (n : string) :
  dname d = Some n ->
  (forall v, v <> PTypeChecked -> isinstance v (wrapped d) = false ->
     exists msg, __set__ d m v = Err (DataSafeHavenParameterError msg)) /\
  __set__ d m PTypeChecked = Ok (<[n := PTypeChecked]> m) /\
  __get__ d (Some (<[n := PTypeChecked]> m)) = Ok (unset_read d).
Proof.
  intros Hn. split; [|split].
  - intros v Hv Ht. unfold __set__, check_type, get_name. rewrite Hn.
    destruct v; try congruence; rewrite Ht; simpl; eexists; reflexivity.
  - unfold __set__, get_name. by rewrite Hn.
  - apply (get_ill_typed d _ n PTypeChecked); [done | apply lookup_insert_eq | by destruct (wrapped d)].
Qed.

(** Creating an SRE with [sre] and then removing it with [remove_sre]
    gives back the original document. *)
Theorem sre_then_remove_sre (c : Config) (nm : string) :
  sres c !! nm = None ->
  exists c1 s1, sre nm c = Ok (c1, s1) /\ sres c1 !! nm = Some s1 /\ remove_sre nm c1 = c.
Proof.
  intros Hn. rewrite (sre_new c nm Hn). eexists _, _. split; [reflexivity|].
  split; [simpl; apply lookup_insert_eq|].
  unfold remove_sre. cbn [sres set_sres]. rewrite lookup_insert_eq, delete_insert_id by done.
  destruct c; reflexivity.
Qed.



Lemma length_append (s1 s2 : string) :
  String.length (s1 ++ s2) = String.length s1 + String.length s2.
Proof. induction s1 as [|ch s1 IH]; simpl; [reflexivity | by rewrite IH]. Qed.

Lemma length_substring0 (n : nat) (s : string) : String.length (substring 0 n s) <= n.
Proof.
  revert s. induction n as [|n IH]; intros [|ch s]; simpl; try lia.
  specialize (IH s). lia.
Qed.

(** The storage account name [__init__] derives, and the key vault
    name the [backend] property derives, are at most 24 characters
    long, whatever the deployment name. *)
Theorem derived_names_bounded (st : BackendSettings) :
  (forall c, config_base st = Ok c -> String.length (backend_storage_account_name c) <= 24) /\
  (forall c, backend_ c = None ->
     exists c' s, backend c = Ok (c', {| key_vault_name := PStr s;
                     managed_identity_name := PStr ("shm-" ++ shm_name_ c ++ "-identity-reader-backend");
                     resource_group_name := PStr (backend_resource_group_name c);
                     storage_account_name := PStr (backend_storage_account_name c);
                     storage_container_name := PStr (backend_storage_container_name c) |}) /\
       backend_ c' = Some {| key_vault_name := PStr s;
                     managed_identity_name := PStr ("shm-" ++ shm_name_ c ++ "-identity-reader-backend");
                     resource_group_name := PStr (backend_resource_group_name c);
                     storage_account_name := PStr (backend_storage_account_name c);
                     storage_container_name := PStr (backend_storage_container_name c) |} /\
       String.length s <= 24).
Proof.
  split.
  - intros c Hc. unfold config_base in Hc. simpl in Hc. injection Hc as <-. simpl.
    rewrite length_append. simpl. rewrite length_append. simpl.
    pose proof (length_substring0 14 (alnum_lower (settings_name st))). lia.
  - intros c Hb. unfold backend. rewrite Hb. simpl.
    eexists _, _. split; [reflexivity|]. split; [reflexivity|].
    simpl. rewrite !length_append. simpl.
    pose proof (length_substring0 9 (shm_name_ c)). lia.
Qed.

(** *** When [__str__] raises *)

Lemma read_tc (t : pytype) (dflt : option pyval) (n : string) (v : pyval) :
  read (tc t dflt n) v =
  Ok (if isinstance v t then v else match dflt with Some x => x | None => PTypeChecked end).
Proof.
  destruct (isinstance v t) eqn:Ht.
  - by apply (read_typed _ n).
  - unfold read. simpl.
    apply (get_ill_typed (tc t dflt n) _ n v); [done | apply lookup_singleton_eq | done].
Qed.

Lemma mapM_err {A B} (f : A -> result B) (l : list A) (x : A) (e : exn) :
  In x l -> f x = Err e -> exists e', mapM f l = Err e'.
Proof.
  intros Hin Hx. induction l as [|y l IH]; [done|]. destruct Hin as [<-|Hin]; simpl.
  - rewrite Hx. by eexists.
  - destruct (f y); simpl; [|by eexists].
    destruct (IH Hin) as [e' ->]. by eexists.
Qed.

Section StrInv.
Variable V : validators.

Lemma config_str_ok_inv (c c' : Config) (t : yaml_text) :
  config_str V c = Ok (c', t) ->
  c' = fst (tags c) /\
  exists p1 p2 p3 p4 p5 d,
    t = yaml_dump (PDict (p1 ++ p2 ++ p3 ++ p4 ++ p5 ++ [("tags", d)])) /\
    match azure_ c with
    | Some a => exists e, azure_to_dict V a = Ok e /\ p1 = [("azure", e)]
    | None => p1 = [] end /\
    match backend_ c with
    | Some b => exists e, backend_to_dict b = Ok e /\ p2 = [("backend", e)]
    | None => p2 = [] end /\
    match pulumi_ c with
    | Some p => exists e, pulumi_to_dict p = Ok e /\ p3 = [("pulumi", e)]
    | None => p3 = [] end /\
    match shm_ c with
    | Some s => exists e, shm_to_dict V s = Ok e /\ p4 = [("shm", e)]
    | None => p4 = [] end /\
    (exists l, sres_to_dict V (sres c) = Ok l) /\
    tags_to_dict (snd (tags c)) = Ok d.
Proof.
  unfold config_str. intros H.
  apply bind_ok in H as (p1 & H1 & H).
  apply bind_ok in H as (p2 & H2 & H).
  apply bind_ok in H as (p3 & H3 & H).
  apply bind_ok in H as (p4 & H4 & H).
  apply bind_ok in H as (p5 & H5 & H).
  destruct (tags c) as [c1 tg] eqn:Et. simpl.
  apply bind_ok in H as (d & Hd & [= <- <-]).
  split; [done|]. exists p1, p2, p3, p4, p5, d.
  split; [done|].
  split; [destruct (azure_ c); [apply bind_ok in H1 as (e & He & [= <-]); eauto | by injection H1]|].
  split; [destruct (backend_ c); [apply bind_ok in H2 as (e & He & [= <-]); eauto | by injection H2]|].
  split; [destruct (pulumi_ c); [apply bind_ok in H3 as (e & He & [= <-]); eauto | by injection H3]|].
  split; [destruct (shm_ c); [apply bind_ok in H4 as (e & He & [= <-]); eauto | by injection H4]|].
  split; [|done].
  case_bool_decide as Hs.
  - rewrite Hs. unfold sres_to_dict. rewrite map_to_list_empty. by eexists.
  - apply bind_ok in H5 as (l & Hl & _). eauto.
Qed.

End StrInv.

Section StrErr.
Variable V : validators.

Lemma config_str_err_of_ok_inv (c : Config) :
  (forall c' t, config_str V c = Ok (c', t) -> False) -> exists e, config_str V c = Err e.
Proof. destruct (config_str V c) as [[c' t]|e]; [intros H; by destruct (H c' t)|eauto]. Qed.

Lemma config_str_err_azure (c : Config) (a : ConfigSectionAzure) (e0 : exn) :
  azure_ c = Some a -> azure_to_dict V a = Err e0 -> exists e, config_str V c = Err e.
Proof.
  intros Ha He. apply config_str_err_of_ok_inv. intros c' t H.
  apply config_str_ok_inv in H as (_ & p1 & p2 & p3 & p4 & p5 & d & _ & Ha' & _).
  rewrite Ha in Ha'. destruct Ha' as (e & He' & _). congruence.
Qed.

Lemma config_str_err_pulumi (c : Config) (p : ConfigSectionPulumi) (e0 : exn) :
  pulumi_ c = Some p -> pulumi_to_dict p = Err e0 -> exists e, config_str V c = Err e.
Proof.
  intros Hp He. apply config_str_err_of_ok_inv. intros c' t H.
  apply config_str_ok_inv in H as (_ & p1 & p2 & p3 & p4 & p5 & d & _ & _ & _ & Hp' & _).
  rewrite Hp in Hp'. destruct Hp' as (e & He' & _). congruence.
Qed.

Lemma config_str_err_sre (c : Config) (nm : string) (s : ConfigSectionSRE) (e0 : exn) :
  sres c !! nm = Some s -> sre_to_dict V s = Err e0 -> exists e, config_str V c = Err e.
Proof.
  intros Hs He. apply config_str_err_of_ok_inv. intros c' t H.
  apply config_str_ok_inv in H as (_ & p1 & p2 & p3 & p4 & p5 & d & _ & _ & _ & _ & _ & [l Hl] & _).
  unfold sres_to_dict in Hl.
  destruct (mapM_err (fun kv => d <- sre_to_dict V kv.2 ;; Ok (kv.1, d))
              (map_to_list (sres c)) (nm, s) e0) as [e' He'].
  - apply list_elem_of_In. by apply elem_of_map_to_list.
  - simpl. by rewrite He.
  - congruence.
Qed.

Lemma config_str_err_tags (c : Config) (e0 : exn) :
  tags_to_dict (snd (tags c)) = Err e0 -> exists e, config_str V c = Err e.
Proof.
  intros He. apply config_str_err_of_ok_inv. intros c' t H.
  apply config_str_ok_inv in H as (_ & p1 & p2 & p3 & p4 & p5 & d & _ & _ & _ & _ & _ & _ & Hd).
  congruence.
Qed.

Lemma sre_to_dict_unset_remote_desktop (s : ConfigSectionSRE) :
  isinstance (allow_copy (remote_desktop s)) TBool = false \/
  isinstance (allow_paste (remote_desktop s)) TBool = false ->
  exists e, sre_to_dict V s = Err e.
Proof.
  intros H. unfold sre_to_dict, validate_sre.
  destruct (guard_all _ _ (data_provider_ip_addresses s)) as [[]|e]; simpl; [|eauto].
  unfold validate_remote_desktop, d_allow_copy, d_allow_paste. rewrite !read_tc.
  destruct (allow_copy (remote_desktop s)), (allow_paste (remote_desktop s));
    simpl in *; destruct H as [H|H]; try discriminate H; eauto.
Qed.

Lemma pulumi_to_dict_no_key (p : ConfigSectionPulumi) :
  nonempty_str (encryption_key_id p) = false -> exists e, pulumi_to_dict p = Err e.
Proof.
  intros H. unfold pulumi_to_dict, validate_pulumi, str_guard, d_encryption_key_id.
  rewrite read_tc. destruct (encryption_key_id p); simpl in *; try rewrite H; eauto.
Qed.

Lemma azure_to_dict_unset_id (a : ConfigSectionAzure) :
  validate_aad_guid V (py_str PTypeChecked) = false ->
  isinstance (subscription_id a) TStr = false \/ isinstance (tenant_id a) TStr = false ->
  exists e, azure_to_dict V a = Err e.
Proof.
  intros Hg H. unfold azure_to_dict, validate_azure.
  unfold d_admin_group_id, d_location, d_subscription_id, d_tenant_id. rewrite !read_tc.
  cbn [bind].
  destruct (guard _ "admin_group_id" _) as [[]|e]; cbn [bind]; [|eauto].
  destruct (guard _ "location" _) as [[]|e]; cbn [bind]; [|eauto].
  destruct H as [H|H].
  - rewrite H. unfold guard at 1. rewrite Hg. cbn [bind]. eauto.
  - destruct (guard _ "subscription_id" _) as [[]|e]; cbn [bind]; [|eauto].
    rewrite H. unfold guard at 1. rewrite Hg. cbn [bind]. eauto.
Qed.

End StrErr.

(** [__str__] raises when an SRE's [allow_copy] or [allow_paste] is not a
    boolean. This includes every SRE just created by [sre], because
    [ConfigSectionSRE()] leaves both unset. *)
Theorem str_fails_with_unset_remote_desktop (V : validators) (c : Config) :
  (forall nm s, sres c !! nm = Some s ->
     isinstance (allow_copy (remote_desktop s)) TBool = false \/
     isinstance (allow_paste (remote_desktop s)) TBool = false ->
     exists e, config_str V c = Err e) /\
  (forall nm, sres c !! nm = None ->
     exists c1 s1, sre nm c = Ok (c1, s1) /\ allow_copy (remote_desktop s1) = PTypeChecked /\
       allow_paste (remote_desktop s1) = PTypeChecked /\ exists e, config_str V c1 = Err e).
Proof.
  split.
  - intros nm s Hs H. destruct (sre_to_dict_unset_remote_desktop V s H) as [e0 He].
    by apply (config_str_err_sre V c nm s e0).
  - intros nm Hn. rewrite (sre_new c nm Hn). eexists _, _. split; [reflexivity|].
    split; [reflexivity|]. split; [reflexivity|].
    destruct (sre_to_dict_unset_remote_desktop V
                (with_index sre_defaults (PInt (py_max0 (idx_list (sres c)) + 1))))
      as [e0 He]; [by left|].
    eapply config_str_err_sre; [|exact He]. simpl. apply lookup_insert_eq.
Qed.

(** [__str__] raises when the pulumi section has no non-empty
    [encryption_key_id]. This includes the section the [pulumi] property
    creates. *)
Theorem str_fails_without_encryption_key (V : validators) (c : Config) :
  (forall p, pulumi_ c = Some p -> nonempty_str (encryption_key_id p) = false ->
     exists e, config_str V c = Err e) /\
  (pulumi_ c = None ->
     exists c1 p, pulumi c = Ok (c1, p) /\ encryption_key_id p = PTypeChecked /\
       exists e, config_str V c1 = Err e).
Proof.
  split.
  - intros p Hp H. destruct (pulumi_to_dict_no_key p H) as [e0 He].
    by apply (config_str_err_pulumi V c p e0).
  - intros Hn. unfold pulumi. rewrite Hn. cbn. eexists _, _. split; [reflexivity|].
    split; [reflexivity|].
    destruct (pulumi_to_dict_no_key pulumi_defaults eq_refl) as [e0 He].
    by apply (config_str_err_pulumi V _ pulumi_defaults e0).
Qed.

Lemma config_str_err_shm (V : validators) (c : Config) (s : ConfigSectionSHM) (e0 : exn) :
  shm_ c = Some s -> shm_to_dict V s = Err e0 -> exists e, config_str V c = Err e.
Proof.
  intros Hs He. apply config_str_err_of_ok_inv. intros c' t H.
  apply config_str_ok_inv in H as (_ & p1 & p2 & p3 & p4 & p5 & d & _ & _ & _ & _ & Hs' & _).
  rewrite Hs in Hs'. destruct Hs' as (e & He' & _). congruence.
Qed.

Lemma str_guard_empty (n f : string) (raw : pyval) :
  nonempty_str raw = false -> exists e, str_guard (tc TStr None n) f raw = Err e.
Proof.
  intros H. unfold str_guard. rewrite read_tc. destruct raw; simpl in *; try rewrite H; eauto.
Qed.

Lemma shm_to_dict_no_fqdn (V : validators) (s : ConfigSectionSHM) :
  nonempty_str (fqdn s) = false \/ nonempty_str (shm_name s) = false ->
  exists e, shm_to_dict V s = Err e.
Proof.
  intros H. unfold shm_to_dict, validate_shm.
  destruct (read d_aad_tenant_id _) as [v1|e]; cbn [bind]; [|eauto].
  destruct (guard _ "aad_tenant_id" _) as [[]|e]; cbn [bind]; [|eauto].
  destruct (read d_admin_email_address _) as [v2|e]; cbn [bind]; [|eauto].
  destruct (guard _ "admin_email_address" _) as [[]|e]; cbn [bind]; [|eauto].
  destruct (guard_all _ "admin_ip_addresses" _) as [[]|e]; cbn [bind]; [|eauto].
  destruct H as [H|H].
  - destruct (str_guard_empty "fqdn" "fqdn" (fqdn s) H) as [e He].
    unfold d_fqdn. rewrite He. cbn [bind]. eauto.
  - destruct (str_guard d_fqdn "fqdn" (fqdn s)) as [[]|e]; cbn [bind]; [|eauto].
    destruct (str_guard_empty "name" "name" (shm_name s) H) as [e He].
    unfold d_shm_name. rewrite He. cbn [bind]. eauto.
Qed.

(** [__str__] raises when the SHM [fqdn] or [name] is not a non-empty
    string. This includes the section the [shm] property creates, which
    sets [name] but leaves [fqdn] unset. *)
Theorem str_fails_without_fqdn (V : validators) (c : Config) :
  (forall s, shm_ c = Some s ->
     nonempty_str (fqdn s) = false \/ nonempty_str (shm_name s) = false ->
     exists e, config_str V c = Err e) /\
  (shm_ c = None ->
     exists c1 s, shm c = Ok (c1, s) /\ fqdn s = PTypeChecked /\
       shm_name s = PStr (shm_name_ c) /\ exists e, config_str V c1 = Err e).
Proof.
  split.
  - intros s Hs H. destruct (shm_to_dict_no_fqdn V s H) as [e0 He].
    by apply (config_str_err_shm V c s e0).
  - intros Hn. unfold shm. rewrite Hn. cbn. eexists _, _. split; [reflexivity|].
    split; [reflexivity|]. split; [reflexivity|].
    match goal with
    | |- exists e, config_str V (set_shm_ c (Some ?s)) = Err e =>
        destruct (shm_to_dict_no_fqdn V s (or_introl eq_refl)) as [e0 He];
        exact (config_str_err_shm V (set_shm_ c (Some s)) s e0 eq_refl He)
    end.
Qed.

(** If the GUID validator rejects the text of the unset sentinel,
    [__str__] raises while the azure [subscription_id] or [tenant_id] is
    not a string. This covers every document [Config()] builds when no
    blob is found. *)
Theorem str_fails_with_unset_azure_id (V : validators) :
  validate_aad_guid V (py_str PTypeChecked) = false ->
  (forall c a, azure_ c = Some a ->
     isinstance (subscription_id a) TStr = false \/ isinstance (tenant_id a) TStr = false ->
     exists e, config_str V c = Err e) /\
  (forall st c, config_init st (Err DataSafeHavenAzureError) = Ok c ->
     exists e, config_str V c = Err e).
Proof.
  intros Hg. split.
  - intros c a Ha H. destruct (azure_to_dict_unset_id V a Hg H) as [e0 He].
    by apply (config_str_err_azure V c a e0).
  - intros st c Hc. unfold config_init in Hc. cbn in Hc.
    assert (Ha : exists a, azure_ c = Some a /\ subscription_id a = PTypeChecked)
      by (injection Hc as <-; eauto).
    destruct Ha as (a & Ha & Hs).
    destruct (azure_to_dict_unset_id V a Hg) as [e0 He]; [left; by rewrite Hs|].
    by apply (config_str_err_azure V c a e0).
Qed.

(** [__str__] raises when the tags section has an empty [deployment]. *)
Theorem str_fails_with_empty_deployment (V : validators) (c : Config) :
  deployment (snd (tags c)) = "" -> exists e, config_str V c = Err e.
Proof.
  intros H. apply (config_str_err_tags V c (invalid "deployment" (PStr ""))).
  unfold tags_to_dict, validate_tags. rewrite H. reflexivity.
Qed.





(** *** Loading *)

Lemma config_base_ok (st : BackendSettings) : exists c0, config_base st = Ok c0.
Proof. unfold config_base. cbn. by eexists. Qed.

Lemma config_init_doc (st : BackendSettings) (y : pyval) (c0 : Config) :
  config_base st = Ok c0 ->
  config_init st (Ok (YamlDoc y)) = if py_truthy y then decode_sections c0 y else Ok c0.
Proof. intros H. unfold config_init. rewrite H. reflexivity. Qed.





Lemma field_init_str (n : string) (o : option pyval) :
  (exists v, field_init (tc TStr None n) o = Ok v) \/
  (exists msg, field_init (tc TStr None n) o = Err (DataSafeHavenParameterError msg)).
Proof.
  unfold field_init. destruct o as [x|]; cbn [bind].
  - unfold write, check_type. destruct x; cbn; eauto.
  - left. by eexists.
Qed.

Lemma field_init_str_bad (n : string) (x : pyval) :
  isinstance x TStr = false -> x <> PTypeChecked ->
  exists msg, field_init (tc TStr None n) (Some x) = Err (DataSafeHavenParameterError msg).
Proof.
  intros Ht Hx. unfold field_init, write, check_type. cbn [bind].
  destruct x; try congruence; cbn in Ht |- *; try discriminate; eauto.
Qed.

Ltac field_step n o :=
  let v := fresh "v" in let msg := fresh "msg" in let Hf := fresh "Hf" in
  destruct (field_init_str n o) as [[v Hf]|[msg Hf]]; rewrite Hf; cbn [bind]; [|eauto].

(** [Config()] raises [DataSafeHavenParameterError] when a stored azure
    field is not a string. *)
Theorem init_rejects_ill_typed_azure_field (st : BackendSettings)
    (kv akv : list (string * pyval)) (f : string) (x : pyval) :
  assoc "azure" kv = Some (PDict akv) ->
  f ∈ ["admin_group_id"; "location"; "subscription_id"; "tenant_id"] ->
  assoc f akv = Some x -> isinstance x TStr = false -> x <> PTypeChecked ->
  exists msg, config_init st (Ok (YamlDoc (PDict kv))) = Err (DataSafeHavenParameterError msg).
Proof.
  intros Ha Hf Hx Ht Hn. destruct (config_base_ok st) as [c0 H0].
  rewrite (config_init_doc st _ c0 H0).
  destruct kv as [|kv0 kv']; [discriminate|]. cbn [py_truthy length].
  unfold decode_sections at 1. cbn [py_contains py_getitem]. rewrite Ha.
  rewrite bool_decide_true by eauto. cbn [bind].
  assert (Hd : exists msg, decode_azure (PDict akv) = Err (DataSafeHavenParameterError msg)).
  { unfold decode_azure, ConfigSectionAzure_new. cbn [as_mapping bind].
    destruct (field_init_str_bad f x Ht Hn) as [msg Hm].
    repeat rewrite elem_of_cons in Hf. rewrite elem_of_nil in Hf.
    destruct Hf as [->|[->|[->|[->|[]]]]]; rewrite Hx.
    - unfold d_admin_group_id. rewrite Hm. cbn [bind]. eauto.
    - unfold d_admin_group_id, d_location. field_step "admin_group_id" (assoc "admin_group_id" akv).
      rewrite Hm. cbn [bind]. eauto.
    - unfold d_admin_group_id, d_location, d_subscription_id.
      field_step "admin_group_id" (assoc "admin_group_id" akv).
      field_step "location" (assoc "location" akv).
      rewrite Hm. cbn [bind]. eauto.
    - unfold d_admin_group_id, d_location, d_subscription_id, d_tenant_id.
      field_step "admin_group_id" (assoc "admin_group_id" akv).
      field_step "location" (assoc "location" akv).
      field_step "subscription_id" (assoc "subscription_id" akv).
      rewrite Hm. cbn [bind]. eauto. }
  destruct Hd as [msg Hd]. rewrite Hd. cbn [bind]. eauto.
Qed.

(** A document that is not a mapping is handled as follows:
    - a falsy one gives the document built from the settings;
    - a non-zero number or [true] raises [TypeError];
    - a list or string raises [TypeError] when it contains a section key
      (as an element or as a substring), and otherwise is ignored. *)
Theorem init_non_mapping_yaml (st : BackendSettings) (c0 : Config) :
  config_base st = Ok c0 ->
  (forall y, py_truthy y = false -> config_init st (Ok (YamlDoc y)) = Ok c0) /\
  (forall z, z <> 0%Z -> config_init st (Ok (YamlDoc (PInt z))) = Err TypeError) /\
  config_init st (Ok (YamlDoc (PBool true))) = Err TypeError /\
  (forall l, l <> [] ->
     config_init st (Ok (YamlDoc (PList l))) =
     if existsb (fun k => existsb (fun x => match x with PStr s => String.eqb s k | _ => false end) l)
          section_keys
     then Err TypeError else Ok c0) /\
  (forall s, s <> "" ->
     config_init st (Ok (YamlDoc (PStr s))) =
     if existsb (fun k => bool_decide (is_Some (String.index 0 k s))) section_keys
     then Err TypeError else Ok c0).
Proof.
  intros H0.
  split; [intros y Hy; by rewrite (config_init_doc st _ c0 H0), Hy|].
  split; [intros z Hz; rewrite (config_init_doc st _ c0 H0); cbn [py_truthy];
          rewrite (proj2 (Z.eqb_neq z 0) Hz); reflexivity|].
  split; [by rewrite (config_init_doc st _ c0 H0)|].
  split.
  - intros l Hl. rewrite (config_init_doc st _ c0 H0). destruct l as [|x l']; [done|]. cbn [py_truthy length]. simpl negb. cbv iota.
    set (l := x :: l'). clearbody l.
    unfold decode_sections, section_keys. cbn [py_contains py_getitem existsb].
    repeat match goal with
           | |- context [existsb ?f l] => destruct (existsb f l); cbn [bind orb]; try done
           end.
  - intros s Hs. rewrite (config_init_doc st _ c0 H0). cbn [py_truthy]. rewrite (proj2 (String.eqb_neq s "") Hs). simpl negb. cbv iota.
    unfold decode_sections, section_keys. cbn [py_contains py_getitem existsb].
    repeat match goal with
           | |- context [bool_decide (is_Some (String.index 0 ?k s))] =>
               destruct (bool_decide (is_Some (String.index 0 k s))); cbn [bind orb]; try done
           end.
Qed.


(** *** Stacks and research desktops *)

(** When [b64decode] inverts [b64encode], [write_stack] returns the text
    [read_stack] stored under the same name. Other stacks are
    unchanged. *)
Theorem stack_read_write_roundtrip (b64encode b64decode : string -> string)
    (c c1 : Config) (nm content : string) :
  (forall s, b64decode (b64encode s) = s) ->
  read_stack b64encode nm content c = Ok c1 ->
  write_stack b64decode nm c1 = Ok (c1, content) /\
  (forall k, k <> nm -> stacks_of c1 !! k = stacks_of c !! k).
Proof.
  intros Hrt H. unfold read_stack, pulumi in H.
  destruct (pulumi_ c) as [p|] eqn:Ep; cbn in H; injection H as <-.
  - unfold write_stack, pulumi. cbn. rewrite lookup_insert_eq, Hrt. split; [done|].
    intros k Hk. unfold stacks_of. rewrite Ep. cbn. by rewrite lookup_insert_ne.
  - unfold write_stack, pulumi. cbn. rewrite lookup_insert_eq, Hrt. split; [done|].
    intros k Hk. unfold stacks_of. rewrite Ep. cbn. by rewrite lookup_insert_ne.
Qed.

(** [write_stack] raises [KeyError] for a stack the document does not
    hold. *)
Theorem write_stack_unknown (b64decode : string -> string) (c : Config) (nm : string) :
  stacks_of c !! nm = None -> write_stack b64decode nm c = Err KeyError.
Proof.
  unfold stacks_of, write_stack, pulumi. intros H.
  destruct (pulumi_ c); cbn; [by rewrite H|done].
Qed.

Lemma pretty_N_go_lead (x : N) (s : string) :
  (0 < x)%N -> exists ch t, pretty_N_go x s = String ch t /\ String ch "" <> "0".
Proof.
  revert s. induction (N.lt_wf_0 x) as [x _ IH]; intros s Hx.
  rewrite pretty_N_go_step by done.
  destruct (decide (0 < x `div` 10)%N) as [Hd|Hd].
  - apply IH; [by apply N.div_lt | done].
  - assert (Hz : (x `div` 10 = 0)%N) by (apply N.le_0_r, N.nlt_ge, Hd). rewrite Hz, pretty_N_go_0.
    eexists _, _. split; [reflexivity|].
    assert (Hlt : (x < 10)%N).
    { apply N.div_small_iff in Hz; [lia | done]. }
    rewrite N.mod_small by done.
    assert (x = 1 \/ x = 2 \/ x = 3 \/ x = 4 \/ x = 5 \/ x = 6 \/ x = 7 \/ x = 8 \/ x = 9)%N
      as Hc by lia.
    destruct Hc as [->|[->|[->|[->|[->|[->|[->|[->| ->]]]]]]]]; discriminate.
Qed.

Lemma pretty_nat_lead (n : nat) :
  (1 <= n)%nat -> exists ch t, pretty n = String ch t /\ String ch "" <> "0".
Proof.
  intros Hn. change (pretty n) with (pretty_N (N.of_nat n)). unfold pretty_N.
  rewrite decide_False by lia. apply pretty_N_go_lead. lia.
Qed.

Lemma fmt02_inj (a b : nat) : fmt02 a = fmt02 b -> a = b.
Proof.
  assert (Hx : forall a b, (a < 10)%nat -> (10 <= b)%nat -> fmt02 a <> fmt02 b).
  { intros x y Hx Hy. unfold fmt02.
    rewrite (proj2 (Nat.ltb_lt x 10) Hx), (proj2 (Nat.ltb_ge y 10) Hy).
    destruct (pretty_nat_lead y) as (ch & t & Ht & Hch); [lia|].
    rewrite Ht. intros [= Hc _]. apply Hch. by rewrite <- Hc. }
  intros H. destruct (Nat.lt_ge_cases a 10) as [Ha|Ha], (Nat.lt_ge_cases b 10) as [Hb|Hb].
  - unfold fmt02 in H. rewrite (proj2 (Nat.ltb_lt a 10) Ha), (proj2 (Nat.ltb_lt b 10) Hb) in H.
    injection H as H. by apply (inj pretty).
  - by destruct (Hx a b).
  - symmetry in H. by destruct (Hx b a).
  - unfold fmt02 in H. rewrite (proj2 (Nat.ltb_ge a 10) Ha), (proj2 (Nat.ltb_ge b 10) Hb) in H.
    by apply (inj pretty).
Qed.

Lemma workspace_key_inj (a b : nat) : workspace_key a = workspace_key b -> a = b.
Proof. unfold workspace_key. intros H. simplify_eq. by apply fmt02_inj. Qed.

Lemma fill_research_desktops_other (k : nat) (skus : list string)
    (m : gmap string ConfigSubsectionResearchDesktopOpts) (key : string) :
  (forall j, key <> workspace_key (k + j)) -> fill_research_desktops k skus m !! key = m !! key.
Proof.
  revert k m. induction skus as [|x rest IH]; intros k m Hk; [done|]. simpl.
  rewrite IH.
  - apply lookup_insert_ne. intros <-. apply (Hk 0). by rewrite Nat.add_0_r.
  - intros j. rewrite Nat.add_succ_comm. apply Hk.
Qed.

Lemma fill_research_desktops_key (k : nat) (skus : list string)
    (m : gmap string ConfigSubsectionResearchDesktopOpts) (i : nat) :
  fill_research_desktops k skus m !! workspace_key (k + i) =
  match skus !! i with Some x => Some {| sku := x |} | None => m !! workspace_key (k + i) end.
Proof.
  revert k m i. induction skus as [|x rest IH]; intros k m i; [done|]. cbn [fill_research_desktops].
  destruct i as [|j].
  - rewrite fill_research_desktops_other.
    + rewrite Nat.add_0_r. apply lookup_insert_eq.
    + intros j Hj. apply workspace_key_inj in Hj. lia.
  - rewrite <- Nat.add_succ_comm, IH. cbn [lookup list_lookup]. destruct (rest !! j); [done|].
    apply lookup_insert_ne. intros Hj. apply workspace_key_inj in Hj. lia.
Qed.

Lemma fill_research_desktops_keys (k : nat) (skus : list string)
    (m : gmap string ConfigSubsectionResearchDesktopOpts) (key : string)
    (r : ConfigSubsectionResearchDesktopOpts) :
  fill_research_desktops k skus m !! key = Some r ->
  m !! key = Some r \/ exists i, key = workspace_key (k + i) /\ skus !! i = Some (sku r).
Proof.
  revert k m. induction skus as [|x rest IH]; intros k m H; [by left|]. cbn [fill_research_desktops] in H.
  destruct (IH _ _ H) as [H'|(i & -> & Hi)].
  - destruct (decide (key = workspace_key k)) as [->|Hne].
    + rewrite lookup_insert_eq in H'. injection H' as <-. right. exists 0.
      by rewrite Nat.add_0_r.
    + rewrite lookup_insert_ne in H' by done. by left.
  - right. exists (S i). by rewrite <- Nat.add_succ_comm.
Qed.

(** When it replaces the collection, [set_research_desktops] maps
    [workspace-NN] to the NN-th requested SKU and holds no other key. *)
Theorem set_research_desktops_layout (skus : list string) (s : ConfigSectionSRE) :
  py_sorted skus <> py_sorted (map fst (map_to_list (research_desktops s))) ->
  (forall i, research_desktops (set_research_desktops skus s) !! workspace_key i =
             (fun x => {| sku := x |}) <$> skus !! i) /\
  (forall key r, research_desktops (set_research_desktops skus s) !! key = Some r ->
     exists i, key = workspace_key i /\ skus !! i = Some (sku r)).
Proof.
  intros Hne. unfold set_research_desktops. rewrite bool_decide_false by done. simpl.
  split.
  - intros i. rewrite (fill_research_desktops_key 0 skus ∅ i). by destruct (skus !! i).
  - intros key r H. apply fill_research_desktops_keys in H as [H|H]; [done|exact H].
Qed.

(** *** Witnesses *)

Lemma TypeChecked_set_then_get_witness :
  dname d_location = Some "location" /\ isinstance (PStr "uksouth") (wrapped d_location) = true /\
  __set__ d_location ∅ (PStr "uksouth") = Ok {["location" := PStr "uksouth"]} /\
  __get__ d_location (Some {["location" := PStr "uksouth"]}) = Ok (PStr "uksouth").
Proof.
  split; [reflexivity|]. split; [reflexivity|].
  destruct (TypeChecked_set_then_get d_location ∅ "location" (PStr "uksouth") eq_refl eq_refl)
    as (H1 & H2 & _).
  split; [exact H1 | exact H2].
Defined.

Lemma TypeChecked_set_rejects_witness :
  dname d_location = Some "location" /\
  exists msg, __set__ d_location ∅ (PInt 3) = Err (DataSafeHavenParameterError msg).
Proof.
  split; [reflexivity|].
  apply (proj1 (TypeChecked_set_rejects d_location ∅ "location" eq_refl)); [discriminate | reflexivity].
Defined.

Lemma sre_then_remove_sre_witness :
  sres acme_config !! "sandbox" = None /\
  exists c1 s1, sre "sandbox" acme_config = Ok (c1, s1) /\ sres c1 !! "sandbox" = Some s1 /\
    remove_sre "sandbox" c1 = acme_config.
Proof.
  split; [reflexivity|]. apply (sre_then_remove_sre acme_config "sandbox"). reflexivity.
Defined.

Lemma str_fails_with_unset_azure_id_witness :
  validate_aad_guid spec_validators (py_str PTypeChecked) = false /\
  exists e, config_str spec_validators acme_config = Err e.
Proof.
  split; [vm_compute; reflexivity|].
  apply (proj2 (str_fails_with_unset_azure_id spec_validators ltac:(vm_compute; reflexivity))
           acme_settings acme_config).
  vm_compute. reflexivity.
Defined.

Lemma str_fails_with_empty_deployment_witness :
  deployment (snd (tags (set_tags_ acme_tagged_config (Some (ConfigSectionTags_new ""))))) = "" /\
  exists e, config_str spec_validators
              (set_tags_ acme_tagged_config (Some (ConfigSectionTags_new ""))) = Err e.
Proof.
  split; [reflexivity|]. apply str_fails_with_empty_deployment. reflexivity.
Defined.




Lemma init_non_mapping_yaml_witness :
  config_base acme_settings = Ok acme_config /\
  config_init acme_settings (Ok (YamlDoc (PList [PStr "sre"]))) = Err TypeError /\
  config_init acme_settings (Ok (YamlDoc (PStr "hello"))) = Ok acme_config.
Proof.
  assert (H0 : config_base acme_settings = Ok acme_config) by (vm_compute; reflexivity).
  split; [exact H0|].
  destruct (init_non_mapping_yaml acme_settings acme_config H0) as (_ & _ & _ & Hl & Hs).
  split.
  - rewrite (Hl [PStr "sre"]) by discriminate. reflexivity.
  - rewrite (Hs "hello") by discriminate. vm_compute. reflexivity.
Defined.



Lemma init_rejects_ill_typed_azure_field_witness :
  exists msg, config_init acme_settings
    (Ok (YamlDoc (PDict [("azure", PDict [("location", PInt 7)])]))) =
    Err (DataSafeHavenParameterError msg).
Proof.
  apply (init_rejects_ill_typed_azure_field acme_settings _ [("location", PInt 7)] "location" (PInt 7));
    [reflexivity | set_solver | reflexivity | reflexivity | discriminate].
Defined.

Lemma stack_read_write_roundtrip_witness :
  exists c1, read_stack (fun s => s) "shm" "config: {}" acme_config = Ok c1 /\
    write_stack (fun s => s) "shm" c1 = Ok (c1, "config: {}").
Proof.
  destruct (read_stack (fun s => s) "shm" "config: {}" acme_config) as [c1|e] eqn:E;
    [|discriminate].
  exists c1. split; [reflexivity|].
  exact (proj1 (stack_read_write_roundtrip (fun s => s) (fun s => s) acme_config c1 "shm"
                  "config: {}" (fun s => eq_refl) E)).
Defined.

Lemma write_stack_unknown_witness :
  stacks_of acme_config !! "shm" = None /\ write_stack (fun s => s) "shm" acme_config = Err KeyError.
Proof.
  split; [reflexivity|]. apply write_stack_unknown. reflexivity.
Defined.

Lemma set_research_desktops_layout_witness :
  py_sorted ["Standard_B2ms"] <> py_sorted (map fst (map_to_list (research_desktops sre_defaults))) /\
  research_desktops (set_research_desktops ["Standard_B2ms"] sre_defaults) !! workspace_key 0 =
    Some {| sku := "Standard_B2ms" |}.
Proof.
  assert (H : py_sorted ["Standard_B2ms"] <>
              py_sorted (map fst (map_to_list (research_desktops sre_defaults))))
    by (vm_compute; discriminate).
  split; [exact H|]. exact (proj1 (set_research_desktops_layout _ _ H) 0).
Defined.
